(** * PO_Reader: a shallow embedding of [PO.py]

    [PO.py] is one Streamlit script: every user action re-runs the module
    from top to bottom.  The embedding follows the script: each helper
    function of the module ([get_gemini_response], [input_image_setup],
    [process_pdf]) is a computation in a small state-and-exception monad
    over a [World] that records what the script does to its surroundings
    (what it displays, which requests it sends to the generation service,
    the temporary files it creates, the feedback log), and the module-level
    code is the computation [script].

    The libraries the script calls (PyMuPDF, PIL, google.generativeai and
    the buffering of Python file objects) are an interface, [Libraries]:
    the script is verified for every implementation of it. *)

From Stdlib Require Import String Ascii List Bool Arith NArith Lia.
From Stdlib.Strings Require Import Byte.
Import ListNotations.

Local Open Scope string_scope.
Local Open Scope list_scope.

(** ** Python values *)

(** Text ([str]) is a [string]: a character is a code point below 256.
    Binary data ([bytes]) is a [list byte]. *)

(** An exception object: its class and the text [str(e)] gives. Every
    exception of the model is a subclass of [Exception]. *)
Record exn := Exn { exn_class : string; exn_str : string }.

Inductive outcome (A : Type) : Type :=
| Ret (a : A)
| Raise (e : exn).
Arguments Ret {A} a.
Arguments Raise {A} e.

(** Truth value testing: [None], the empty string and the empty list are
    false. *)
Definition truthy_str (s : option string) : bool :=
  match s with
  | Some (String _ _) => true
  | _ => false
  end.

Definition truthy_list {A : Type} (l : option (list A)) : bool :=
  match l with
  | Some (_ :: _) => true
  | _ => false
  end.

(** [x in [a, b, c]] on strings. *)
Fixpoint str_in (x : string) (l : list string) : bool :=
  match l with
  | [] => false
  | y :: l' => String.eqb x y || str_in x l'
  end.

(** [s.encode()]: UTF-8, one byte below 128 and two bytes from 128 on. *)
Definition byte_of_N (n : N) : byte :=
  match Byte.of_N n with
  | Some b => b
  | None => x00
  end.

Definition utf8_char (c : ascii) : list byte :=
  let n := N_of_ascii c in
  if (n <? 128)%N then [byte_of_N n]
  else [byte_of_N (192 + n / 64); byte_of_N (128 + n mod 64)].

Fixpoint encode (s : string) : list byte :=
  match s with
  | EmptyString => []
  | String c s' => utf8_char c ++ encode s'
  end.

(** ** The data the script handles *)

(** What [st.file_uploader] returns: Streamlit's [UploadedFile], a
    [BytesIO] with the declared media type; its read position is part of
    the [World]. *)
Record UploadedFile := {
  up_name : string;
  up_type : string;
  up_data : list byte
}.

(** The dictionary [{"mime_type": ..., "data": ...}] handed to the model. *)
Record part := Part { mime_type : string; data : list byte }.

(** An element of the list passed to [generate_content]. *)
Inductive content :=
| CText (s : string)
| CPart (p : part).

Record request := Request { model_name : string; contents : list content }.

(** What the page shows: the output calls of the script, in order. *)
Inductive ui_event :=
| st_title (body : string)
| st_subheader (body : string)
| st_error (body : string)
| st_warning (body : string)
| st_success (body : string)
| st_write (body : string)
| st_image (caption : string)
| st_text_area (label value : string).

(** A file made by [tempfile.NamedTemporaryFile]: what a reader of its
    path sees, what is still in the write buffer of the handle, and
    whether the handle is open. *)
Record tmpfile := TmpFile {
  tmp_disk : list byte;
  tmp_buffer : list byte;
  tmp_open : bool
}.

Record World := {
  ui : list ui_event;             (* what was displayed, oldest first *)
  genai_key : option string;      (* key given to [genai.configure] *)
  requests : list request;        (* calls of [generate_content] *)
  tmpdir : list tmpfile;          (* temporary files, by number *)
  feedback_log : option string;   (* [feedback_log.txt], [None]: absent *)
  up_pos : nat                    (* read position of the uploaded file *)
}.

Definition set_ui (f : list ui_event -> list ui_event) (w : World) : World :=
  {| ui := f (ui w); genai_key := genai_key w; requests := requests w;
     tmpdir := tmpdir w; feedback_log := feedback_log w; up_pos := up_pos w |}.

Definition set_genai_key (k : option string) (w : World) : World :=
  {| ui := ui w; genai_key := k; requests := requests w;
     tmpdir := tmpdir w; feedback_log := feedback_log w; up_pos := up_pos w |}.

Definition set_requests (f : list request -> list request) (w : World) : World :=
  {| ui := ui w; genai_key := genai_key w; requests := f (requests w);
     tmpdir := tmpdir w; feedback_log := feedback_log w; up_pos := up_pos w |}.

Definition set_tmpdir (f : list tmpfile -> list tmpfile) (w : World) : World :=
  {| ui := ui w; genai_key := genai_key w; requests := requests w;
     tmpdir := f (tmpdir w); feedback_log := feedback_log w; up_pos := up_pos w |}.

Definition set_feedback_log (l : option string) (w : World) : World :=
  {| ui := ui w; genai_key := genai_key w; requests := requests w;
     tmpdir := tmpdir w; feedback_log := l; up_pos := up_pos w |}.

Definition set_up_pos (n : nat) (w : World) : World :=
  {| ui := ui w; genai_key := genai_key w; requests := requests w;
     tmpdir := tmpdir w; feedback_log := feedback_log w; up_pos := n |}.

(** The world a fresh process starts in. *)
Definition initial_world : World :=
  {| ui := []; genai_key := None; requests := []; tmpdir := [];
     feedback_log := None; up_pos := 0 |}.

(** ** The monad of the script *)

Definition M (A : Type) : Type := World -> outcome A * World.

Definition ret {A : Type} (a : A) : M A := fun w => (Ret a, w).

Definition raise {A : Type} (e : exn) : M A := fun w => (Raise e, w).

Definition bind {A B : Type} (m : M A) (k : A -> M B) : M B :=
  fun w =>
    match m w with
    | (Ret a, w') => k a w'
    | (Raise e, w') => (Raise e, w')
    end.

(** [try: body except Exception as e: handler]. *)
Definition try_except {A : Type} (body : M A) (handler : exn -> M A) : M A :=
  fun w =>
    match body w with
    | (Ret a, w') => (Ret a, w')
    | (Raise e, w') => handler e w'
    end.

(** The exit of a [with] block: [release] runs on both ways out and the
    exception, if any, goes on. *)
Definition finally {A : Type} (body : M A) (release : M unit) : M A :=
  fun w =>
    match body w with
    | (Ret a, w') =>
        match release w' with
        | (Ret _, w'') => (Ret a, w'')
        | (Raise e, w'') => (Raise e, w'')
        end
    | (Raise e, w') =>
        match release w' with
        | (Ret _, w'') => (Raise e, w'')
        | (Raise e', w'') => (Raise e', w'')
        end
    end.

Definition lift {A : Type} (o : outcome A) : M A := fun w => (o, w).

Declare Scope script_scope.
Delimit Scope script_scope with script.
Notation "x <- m ;; k" := (bind m (fun x => k))
  (at level 61, m at next level, right associativity) : script_scope.
Notation "m ;; k" := (bind m (fun _ => k))
  (at level 61, right associativity) : script_scope.
Local Open Scope script_scope.

(** Display one element on the page. *)
Definition emit (e : ui_event) : M unit :=
  fun w => (Ret tt, set_ui (fun l => l ++ [e]) w).

(** The error messages on the page. *)
Fixpoint errors_of (l : list ui_event) : list string :=
  match l with
  | [] => []
  | st_error m :: l' => m :: errors_of l'
  | _ :: l' => errors_of l'
  end.

(** ** The libraries *)

Class Libraries := {
  (** A page of an opened PDF document. *)
  page : Type;
  (** [fitz.open(path)] on a file with these bytes: the pages in physical
      order, or the exception of the parser. *)
  fitz_open : list byte -> outcome (list page);
  (** [page.get_text("text")]. *)
  get_text : page -> outcome string;
  (** [Image.open(file)] on a stream with this content: the read position
      the decoder leaves, or its exception. *)
  pil_open : list byte -> outcome nat;
  (** [GenerativeModel(name).generate_content(contents).text]: the answer
      of the service for the configured key, the requests sent before
      and this one, or the exception of the client library. *)
  generate_content : option string -> list request -> request -> outcome string;
  (** Size of the write buffer of a binary file object. *)
  io_buffer_size : nat
}.

Section Script.

Context {L : Libraries}.

(** ** Files *)

(** [uploaded_file.getvalue()]: the whole content, whatever the position. *)
Definition getvalue (f : UploadedFile) : M (list byte) :=
  ret (up_data f).

(** [uploaded_file.read()]: the content from the position to the end; the
    position moves to the end. *)
Definition read (f : UploadedFile) : M (list byte) :=
  fun w =>
    (Ret (skipn (up_pos w) (up_data f)),
     set_up_pos (Nat.max (up_pos w) (length (up_data f))) w).

(** [Image.open(uploaded_file)]: the decoder rewinds the stream, so it
    reads the whole content whatever the position was, and leaves the
    stream where it stopped. *)
Definition Image_open (f : UploadedFile) : M unit :=
  fun w =>
    match pil_open (up_data f) with
    | Ret used => (Ret tt, set_up_pos (Nat.min used (length (up_data f))) w)
    | Raise e => (Raise e, w)
    end.

Fixpoint update_nth {A : Type} (n : nat) (f : A -> A) (l : list A) : list A :=
  match l, n with
  | [], _ => []
  | x :: l', O => f x :: l'
  | x :: l', S n' => x :: update_nth n' f l'
  end.

(** [tempfile.NamedTemporaryFile(delete=False, suffix=".pdf")]: a new,
    empty, open file; its number stands for its name. With [delete=False]
    closing the handle leaves the file in place. *)
Definition NamedTemporaryFile : M nat :=
  fun w =>
    (Ret (length (tmpdir w)),
     set_tmpdir (fun d => d ++ [TmpFile [] [] true]) w).

(** [handle.write(b)] on a buffered binary file: what fits in the buffer
    stays there; otherwise the buffer is flushed first and a chunk longer
    than the buffer goes to the file at once. *)
Definition buffered_write (b : list byte) (t : tmpfile) : tmpfile :=
  if (length (tmp_buffer t) + length b <=? io_buffer_size)%nat
  then TmpFile (tmp_disk t) (tmp_buffer t ++ b) (tmp_open t)
  else if (io_buffer_size <? length b)%nat
       then TmpFile (tmp_disk t ++ tmp_buffer t ++ b) [] (tmp_open t)
       else TmpFile (tmp_disk t ++ tmp_buffer t) b (tmp_open t).

Definition tmp_write (name : nat) (b : list byte) : M unit :=
  fun w => (Ret tt, set_tmpdir (update_nth name (buffered_write b)) w).

(** Closing the handle (the exit of the [with] block): the buffer is
    flushed; the file is not deleted. *)
Definition close_handle (t : tmpfile) : tmpfile :=
  TmpFile (tmp_disk t ++ tmp_buffer t) [] false.

Definition tmp_close (name : nat) : M unit :=
  fun w => (Ret tt, set_tmpdir (update_nth name close_handle) w).

(** [fitz.open(temp_pdf.name)]: the parser opens the file by its path and
    sees what has reached the file. *)
Definition fitz_open_path (name : nat) : M (list page) :=
  fun w =>
    match nth_error (tmpdir w) name with
    | Some t => (fitz_open (tmp_disk t), w)
    | None => (Raise (Exn "FileNotFoundError" "no such file"), w)
    end.

(** ** The generation service *)

(** [genai.configure(api_key=api_key)]. *)
Definition genai_configure (api_key : string) : M unit :=
  fun w => (Ret tt, set_genai_key (Some api_key) w).

(** [model.generate_content(contents)] followed by [response.text]: one
    request leaves for the service. *)
Definition model_generate_content (name : string) (cs : list content) : M string :=
  fun w =>
    let r := Request name cs in
    (generate_content (genai_key w) (requests w) r,
     set_requests (fun l => l ++ [r]) w).

(** [l[0]]. *)
Definition index0 {A : Type} (l : list A) : M A :=
  match l with
  | x :: _ => ret x
  | [] => raise (Exn "IndexError" "list index out of range")
  end.

(** ** The functions of the module *)

(** [get_gemini_response(input_text, image_parts, prompt)] *)
Definition get_gemini_response (input_text : string) (image_parts : list part)
    (prompt : string) : M (option string) :=
  try_except
    (p0 <- index0 image_parts ;;
     text <- model_generate_content "gemini-1.5-flash"
               [CText input_text; CPart p0; CText prompt] ;;
     ret (Some text))
    (fun e =>
       emit (st_error ("Error with Gemini model: " ++ exn_str e)) ;;
       ret None).

(** [input_image_setup(uploaded_file)] *)
Definition input_image_setup (uploaded_file : option UploadedFile)
    : M (option (list part)) :=
  try_except
    (match uploaded_file with
     | Some f =>
         bytes_data <- getvalue f ;;
         ret (Some [Part (up_type f) bytes_data])
     | None =>
         emit (st_warning "No file uploaded.") ;;
         ret None
     end)
    (fun e =>
       emit (st_error ("Error processing image: " ++ exn_str e)) ;;
       ret None).

(** The loop of [process_pdf]:
    [for page_num in range(pdf_document.page_count):
         pdf_text += pdf_document[page_num].get_text("text")] *)
Fixpoint extract_pages (pdf_document : list page) (page_nums : list nat)
    (pdf_text : string) : outcome string :=
  match page_nums with
  | [] => Ret pdf_text
  | page_num :: rest =>
      match nth_error pdf_document page_num with
      | None => Raise (Exn "IndexError" "page not in document")
      | Some pg =>
          match get_text pg with
          | Ret t => extract_pages pdf_document rest (pdf_text ++ t)
          | Raise e => Raise e
          end
      end
  end.

(** [process_pdf(uploaded_file)] *)
Definition process_pdf (uploaded_file : UploadedFile) : M (option string) :=
  try_except
    (temp_pdf <- NamedTemporaryFile ;;
     pdf_text <- finally
       (b <- read uploaded_file ;;
        tmp_write temp_pdf b ;;
        pdf_document <- fitz_open_path temp_pdf ;;
        lift (extract_pages pdf_document
                (seq 0 (length pdf_document)) EmptyString))
       (tmp_close temp_pdf) ;;
     ret (Some pdf_text))
    (fun e =>
       emit (st_error ("Error processing PDF: " ++ exn_str e)) ;;
       ret None).

(** ** Rendering the feedback record

    [str(feedback_log)] is the [repr] of a dictionary: the [repr] of each
    key and value, in insertion order. *)

Definition squote : ascii := "'"%char.
Definition dquote : ascii := "034"%char.
Definition backslash : ascii := "092"%char.
Definition newline : ascii := "010"%char.

Fixpoint has_char (c : ascii) (s : string) : bool :=
  match s with
  | EmptyString => false
  | String d s' => Ascii.eqb c d || has_char c s'
  end.

(** [repr] of a string puts it in single quotes, unless it holds a single
    quote and no double quote. *)
Definition repr_quote (s : string) : ascii :=
  if has_char squote s && negb (has_char dquote s) then dquote else squote.

Definition hex_digit (n : N) : ascii :=
  ascii_of_N (if (n <? 10)%N then 48 + n else 87 + n).

(** [str.isprintable] on the code points below 256: controls, the no-break
    space and the soft hyphen are not printable. *)
Definition isprintable (c : ascii) : bool :=
  let n := N_of_ascii c in
  ((32 <=? n)%N && (n <=? 126)%N) || ((161 <=? n)%N && negb (n =? 173)%N).

Definition repr_char (quote c : ascii) : string :=
  if Ascii.eqb c quote || Ascii.eqb c backslash
  then String backslash (String c EmptyString)
  else if Ascii.eqb c "009"%char then String backslash "t"
  else if Ascii.eqb c newline then String backslash "n"
  else if Ascii.eqb c "013"%char then String backslash "r"
  else if isprintable c then String c EmptyString
  else String backslash
         (String "x"%char
            (String (hex_digit (N_of_ascii c / 16))
               (String (hex_digit (N_of_ascii c mod 16)) EmptyString))).

Fixpoint repr_body (quote : ascii) (s : string) : string :=
  match s with
  | EmptyString => EmptyString
  | String c s' => repr_char quote c ++ repr_body quote s'
  end.

Definition repr_str (s : string) : string :=
  let quote := repr_quote s in
  String quote (repr_body quote s ++ String quote EmptyString).

(** [repr] of a value that is a string or [None]. *)
Definition repr_opt (v : option string) : string :=
  match v with
  | Some s => repr_str s
  | None => "None"
  end.

(** The dictionary [feedback_log] of line 127: four keys, in this order;
    the response is a text or [None]. *)
Record FeedbackRecord := {
  fb_query : string;
  fb_response : option string;
  fb_validation : string;
  fb_feedback : string
}.

(** [str(feedback_log)] *)
Definition str_feedback_log (d : FeedbackRecord) : string :=
  "{'query': " ++ repr_str (fb_query d) ++
  ", 'response': " ++ repr_opt (fb_response d) ++
  ", 'validation': " ++ repr_str (fb_validation d) ++
  ", 'feedback': " ++ repr_str (fb_feedback d) ++ "}".

(** [with open("feedback_log.txt", "a") as log_file: log_file.write(text)]:
    the file is made if it is absent and the text goes to its end. *)
Definition append_log (text : string) : M unit :=
  fun w =>
    (Ret tt,
     set_feedback_log
       (Some (match feedback_log w with
              | Some old => (old ++ text)%string
              | None => text
              end)) w).

(** ** The module-level code *)

(** The choice of [st.radio("Is this response correct?", ("Yes", "No"))]. *)
Inductive verdict := Yes | No.

Definition verdict_str (v : verdict) : string :=
  match v with
  | Yes => "Yes"
  | No => "No"
  end.

(** What one run of the script reads from its surroundings: the
    environment variable and the values of the input widgets. *)
Record Inputs := {
  in_api_key : option string;             (* [os.getenv("GOOGLE_API_KEY")] *)
  in_uploaded_file : option UploadedFile; (* [st.file_uploader(...)] *)
  in_query : string;                      (* [st.text_input(...)] *)
  in_submit : bool;                       (* [st.button("Submit Query")] *)
  in_validation : verdict;                (* [st.radio(...)] *)
  in_feedback : string;                   (* [st.text_area(...)] *)
  in_submit_feedback : bool               (* [st.button("Submit Feedback")] *)
}.

Definition indent : string := "                   ".

Definition input_prompt : string :=
  String newline indent ++
  "You are an expert in understanding purchase orders. " ++
  String newline indent ++
  "You will receive input images as POs or PDF content as text," ++
  String newline indent ++
  "and you will answer questions based on the input document. " ++
  String newline indent.

(** Lines 10 to 17: the credential. *)
Definition startup (api_key : option string) : M unit :=
  match api_key with
  | None => emit (st_error "Google API Key is not set. Check your .env file.")
  | Some k => genai_configure k
  end.

(** [pdf_text.encode()] where [pdf_text] may be [None]. *)
Definition encode_method (pdf_text : option string) : M (list byte) :=
  match pdf_text with
  | Some t => ret (encode t)
  | None =>
      raise (Exn "AttributeError"
                 "'NoneType' object has no attribute 'encode'")
  end.

(** Lines 72 to 89, the block [with col1:]. It gives the values of
    [image_data] and [pdf_text] at its end. *)
Definition upload_column (uploaded_file : option UploadedFile)
    : M (option (list part) * option string) :=
  match uploaded_file with
  | None => ret (None, None)
  | Some f =>
      let file_type := up_type f in
      if str_in file_type ["image/jpeg"; "image/png"; "image/jpg"] then
        Image_open f ;;
        emit (st_image "Uploaded PO Image") ;;
        image_data <- input_image_setup (Some f) ;;
        ret (image_data, None)
      else if String.eqb file_type "application/pdf" then
        pdf_text <- process_pdf f ;;
        match pdf_text with
        | Some (String c t) =>
            emit (st_subheader "Uploaded PDF Content Preview") ;;
            emit (st_text_area "PDF Content"
                    (substring 0 1500 (String c t) ++ "..."))
        | _ => ret tt
        end ;;
        encoded <- encode_method pdf_text ;;
        ret (Some [Part "text/plain" encoded], pdf_text)
      else ret (None, None)
  end.

(** Reading the variable [response]: it is bound only if the branch that
    calls the model ran. *)
Definition load_response (response : option (option string))
    : M (option string) :=
  match response with
  | Some r => ret r
  | None => raise (Exn "NameError" "name 'response' is not defined")
  end.

(** Lines 125 to 138: the body of [if st.button("Submit Feedback"):]. *)
Definition log_feedback (query : string) (response : option (option string))
    (validation feedback : string) : M unit :=
  r <- load_response response ;;
  let feedback_log :=
    {| fb_query := query; fb_response := r;
       fb_validation := validation; fb_feedback := feedback |} in
  append_log (str_feedback_log feedback_log ++ String newline EmptyString) ;;
  emit (st_success
          "Feedback submitted. Thank you for helping improve the system!").

(** Lines 92 to 138, the block [with col2:]. *)
Definition question_column (i : Inputs) (image_data : option (list part))
    : M unit :=
  emit (st_subheader "Question and Response") ;;
  if in_submit i then
    response <-
      (if truthy_list image_data && truthy_str (Some (in_query i)) then
         r <- get_gemini_response (in_query i)
                (match image_data with Some l => l | None => [] end)
                input_prompt ;;
         (if truthy_str r then
            emit (st_subheader "System Response") ;;
            emit (st_write (match r with Some t => t | None => EmptyString end))
          else
            emit (st_warning
                    "No response received. Check model setup or query.")) ;;
         ret (Some r)
       else
         emit (st_warning
                 "Please upload an image or PDF and enter a query.") ;;
         ret None) ;;
    emit (st_subheader "Validate the Response") ;;
    if in_submit_feedback i then
      log_feedback (in_query i) response
        (verdict_str (in_validation i)) (in_feedback i)
    else ret tt
  else ret tt.

(** One run of the script. *)
Definition script (i : Inputs) : M unit :=
  startup (in_api_key i) ;;
  emit (st_title "Purchase Order Automation System") ;;
  iv <- upload_column (in_uploaded_file i) ;;
  question_column i (fst iv).

(** ** Vocabulary of the statements *)

(** What the parser finds when it opens the temporary file by its path:
    of the bytes written to the handle, those that have left its buffer. *)
Definition seen_at_open (b : list byte) : list byte :=
  tmp_disk (buffered_write b (TmpFile [] [] true)).

(** The texts of the pages one after the other, nothing in between. *)
Fixpoint join_texts (texts : list string) : string :=
  match texts with
  | [] => EmptyString
  | t :: rest => t ++ join_texts rest
  end.

(** The text [process_pdf] gets out of the bytes [b] of the upload. *)
Definition extraction (b : list byte) : outcome string :=
  match fitz_open (seen_at_open b) with
  | Ret pdf_document =>
      extract_pages pdf_document (seq 0 (length pdf_document)) EmptyString
  | Raise e => Raise e
  end.

(** The world after [process_pdf], before any message: the upload is read
    to its end and the temporary directory has one more file, closed, with
    the bytes read. *)
Definition after_process_pdf (f : UploadedFile) (w : World) : World :=
  set_tmpdir
    (fun d => d ++ [TmpFile (skipn (up_pos w) (up_data f)) [] false])
    (set_up_pos (Nat.max (up_pos w) (length (up_data f))) w).

(** The text of the log file; an absent file has none. *)
Definition log_text (w : World) : string :=
  match feedback_log w with
  | Some t => t
  | None => EmptyString
  end.

(** [v] occurs in [s]. *)
Definition occurs_in (v s : string) : Prop :=
  exists before after : string, s = (before ++ v ++ after)%string.

(** A string [repr] shows as it is between single quotes: printable
    characters, no single quote and no backslash. *)
Fixpoint plain (s : string) : bool :=
  match s with
  | EmptyString => true
  | String c s' =>
      isprintable c && negb (Ascii.eqb c squote)
      && negb (Ascii.eqb c backslash) && plain s'
  end.

(** Every character is printable: no control character, so no line
    break of any kind. *)
Fixpoint printable (s : string) : bool :=
  match s with
  | EmptyString => true
  | String c s' => isprintable c && printable s'
  end.

(** *** Reading a log line back

    The program never reads its log. The reader below is the inverse of
    [str_feedback_log]; it serves to state that a line holds the four
    values it was made of. *)

Definition hex_value (c : ascii) : option N :=
  let n := N_of_ascii c in
  if (48 <=? n)%N && (n <=? 57)%N then Some (n - 48)%N
  else if (97 <=? n)%N && (n <=? 102)%N then Some (n - 87)%N
  else None.

Definition unescape (c : ascii) : ascii :=
  if Ascii.eqb c "t"%char then "009"%char
  else if Ascii.eqb c "n"%char then newline
  else if Ascii.eqb c "r"%char then "013"%char
  else c.

Definition push (c : ascii) (r : option (string * string))
    : option (string * string) :=
  match r with
  | Some (v, rest) => Some (String c v, rest)
  | None => None
  end.

(** Reads the inside of a string literal up to its closing quote: the
    string it denotes and what follows the quote. *)
Fixpoint read_body (quote : ascii) (s : string) : option (string * string) :=
  match s with
  | EmptyString => None
  | String c s1 =>
      if Ascii.eqb c quote then Some (EmptyString, s1)
      else if Ascii.eqb c backslash then
        match s1 with
        | EmptyString => None
        | String e s2 =>
            if Ascii.eqb e "x"%char then
              match s2 with
              | String h (String l s3) =>
                  match hex_value h, hex_value l with
                  | Some a, Some b =>
                      push (ascii_of_N (16 * a + b)) (read_body quote s3)
                  | _, _ => None
                  end
              | _ => None
              end
            else push (unescape e) (read_body quote s2)
        end
      else push c (read_body quote s1)
  end.

Definition read_repr (s : string) : option (string * string) :=
  match s with
  | String q s1 =>
      if Ascii.eqb q squote || Ascii.eqb q dquote then read_body q s1
      else None
  | EmptyString => None
  end.

(** [strip p s]: what follows [p] at the start of [s]. *)
Fixpoint strip (p s : string) : option string :=
  match p with
  | EmptyString => Some s
  | String c p1 =>
      match s with
      | String d s1 => if Ascii.eqb c d then strip p1 s1 else None
      | EmptyString => None
      end
  end.

Definition read_repr_opt (s : string) : option (option string * string) :=
  match strip "None" s with
  | Some rest => Some (None, rest)
  | None =>
      match read_repr s with
      | Some (v, rest) => Some (Some v, rest)
      | None => None
      end
  end.

Definition read_feedback_log (line : string) : option FeedbackRecord :=
  match strip "{'query': " line with
  | None => None
  | Some s1 =>
  match read_repr s1 with
  | None => None
  | Some (q, s2) =>
  match strip ", 'response': " s2 with
  | None => None
  | Some s3 =>
  match read_repr_opt s3 with
  | None => None
  | Some (r, s4) =>
  match strip ", 'validation': " s4 with
  | None => None
  | Some s5 =>
  match read_repr s5 with
  | None => None
  | Some (v, s6) =>
  match strip ", 'feedback': " s6 with
  | None => None
  | Some s7 =>
  match read_repr s7 with
  | None => None
  | Some (f, s8) =>
      if String.eqb s8 "}" then Some (Build_FeedbackRecord q r v f) else None
  end end end end end end end end.

(** The media types the upload block handles. *)
Definition image_types : list string := ["image/jpeg"; "image/png"; "image/jpg"].

Definition supported (file_type : string) : bool :=
  str_in file_type image_types || String.eqb file_type "application/pdf".

End Script.

(** ** A small implementation of the libraries

    Used to run the script on concrete inputs. A document of the toy
    format is the four bytes [%PDF] followed by its pages, each page being
    its text and a form feed; an image starts with the PNG signature
    byte. *)

Fixpoint toy_pages (cur : list byte) (b : list byte) : list string :=
  match b with
  | [] => []
  | x0c :: b' => string_of_list_byte (rev cur) :: toy_pages [] b'
  | c :: b' => toy_pages (c :: cur) b'
  end.

Definition toy_fitz_open (b : list byte) : outcome (list string) :=
  match b with
  | [] => Raise (Exn "EmptyFileError" "Cannot open empty file")
  | x25 :: x50 :: x44 :: x46 :: rest => Ret (toy_pages [] rest)
  | _ => Raise (Exn "FileDataError" "Failed to open file")
  end.

Definition toy_pil_open (b : list byte) : outcome nat :=
  match b with
  | x89 :: _ => Ret (Nat.min 16 (length b))
  | _ => Raise (Exn "UnidentifiedImageError" "cannot identify image file")
  end.

(** The service of the toy answers when a key is configured. *)
Definition toy_generate_content (key : option string) (sent : list request)
    (r : request) : outcome string :=
  match key with
  | Some _ => Ret "The total is $500"
  | None => Raise (Exn "DefaultCredentialsError" "No API_KEY or ADC found.")
  end.

Definition toy_libs : Libraries :=
  {| page := string;
     fitz_open := toy_fitz_open;
     get_text := fun pg => Ret pg;
     pil_open := toy_pil_open;
     generate_content := toy_generate_content;
     io_buffer_size := 4 |}.

(** The same, on a machine where the client library finds credentials of
    its own when no key was configured. *)
Definition toy_libs_adc : Libraries :=
  {| page := string;
     fitz_open := toy_fitz_open;
     get_text := fun pg => Ret pg;
     pil_open := toy_pil_open;
     generate_content := fun _ _ _ => Ret "The total is $500";
     io_buffer_size := 4 |}.

Definition form_feed : string := String "012"%char EmptyString.

Definition toy_pdf (name : string) (pages : list string) : UploadedFile :=
  {| up_name := name;
     up_type := "application/pdf";
     up_data := list_byte_of_string
                  ("%PDF" ++ String.concat form_feed pages ++
                   match pages with [] => EmptyString | _ => form_feed end) |}.

Definition three_pages : UploadedFile :=
  toy_pdf "po.pdf" ["Page1 text"; "Page2 text"; "Page3 text"].

(** A scanned page: the document parses and its page has no text. *)
Definition scanned_pdf : UploadedFile := toy_pdf "scan.pdf" [EmptyString].

Definition broken_pdf : UploadedFile :=
  {| up_name := "broken.pdf";
     up_type := "application/pdf";
     up_data := list_byte_of_string "not a pdf" |}.

Definition po_png : UploadedFile :=
  {| up_name := "po.png";
     up_type := "image/png";
     up_data := [x89; x50; x4e; x47; x0d; x0a; x1a; x0a] |}.

Definition fake_png : UploadedFile :=
  {| up_name := "fake.png";
     up_type := "image/png";
     up_data := list_byte_of_string "not an image" |}.

Definition notes_txt : UploadedFile :=
  {| up_name := "notes.txt";
     up_type := "text/plain";
     up_data := list_byte_of_string "call the supplier" |}.

Definition no_action (key : option string) (f : option UploadedFile) : Inputs :=
  {| in_api_key := key; in_uploaded_file := f; in_query := EmptyString;
     in_submit := false; in_validation := Yes; in_feedback := EmptyString;
     in_submit_feedback := false |}.

Definition ask (key : option string) (f : option UploadedFile) (q : string)
    : Inputs :=
  {| in_api_key := key; in_uploaded_file := f; in_query := q;
     in_submit := true; in_validation := Yes; in_feedback := EmptyString;
     in_submit_feedback := false |}.

(** Both buttons report a click in the same run. *)
Definition send_feedback (key : option string) (f : option UploadedFile)
    (q : string) (v : verdict) (fb : string) : Inputs :=
  {| in_api_key := key; in_uploaded_file := f; in_query := q;
     in_submit := true; in_validation := v; in_feedback := fb;
     in_submit_feedback := true |}.

(** ** More vocabulary and inputs *)

(** A reader of UTF-8 for the code points below 256, the inverse of
    [encode]; the program never decodes. *)
Fixpoint decode (b : list byte) : option string :=
  match b with
  | [] => Some EmptyString
  | x :: b1 =>
      let n := Byte.to_N x in
      if (n <? 128)%N then option_map (String (ascii_of_N n)) (decode b1)
      else if (n =? 194)%N || (n =? 195)%N then
        match b1 with
        | y :: b2 =>
            let m := Byte.to_N y in
            if (128 <=? m)%N && (m <? 192)%N
            then option_map (String (ascii_of_N ((n - 192) * 64 + (m - 128))))
                   (decode b2)
            else None
        | [] => None
        end
      else None
  end.

(** The request of a run: the question, the input unit, the fixed
    prompt, for the fixed model. *)
Definition query_request (query : string) (unit : part) : request :=
  Request "gemini-1.5-flash" [CText query; CPart unit; CText input_prompt].

Definition no_response_warning : ui_event :=
  st_warning "No response received. Check model setup or query.".

(** What the question block shows of the outcome of the model call. *)
Definition shown_answer (answer : outcome string) : list ui_event :=
  match answer with
  | Ret (String c t) => [st_subheader "System Response"; st_write (String c t)]
  | Ret EmptyString => [no_response_warning]
  | Raise e =>
      [st_error ("Error with Gemini model: " ++ exn_str e); no_response_warning]
  end.

(** The value of [response] after the model call. *)
Definition response_of (answer : outcome string) : option string :=
  match answer with
  | Ret t => Some t
  | Raise _ => None
  end.

Section MoreVocabulary.

Context {L : Libraries}.

(** What [process_pdf] returns when the parser finds the bytes [seen] in
    the temporary file: the text of all the pages, or [None]. *)
Definition returned_for (seen : list byte) : option string :=
  match fitz_open seen with
  | Ret pdf_document =>
      match extract_pages pdf_document
              (seq 0 (length pdf_document)) EmptyString with
      | Ret pdf_text => Some pdf_text
      | Raise _ => None
      end
  | Raise _ => None
  end.

End MoreVocabulary.

(** A library whose text extraction fails on a damaged page. *)
Definition toy_libs_damaged : Libraries :=
  {| page := string;
     fitz_open := toy_fitz_open;
     get_text := fun pg =>
       if String.eqb pg "damaged"
       then Raise (Exn "RuntimeError" "cannot load page")
       else Ret pg;
     pil_open := toy_pil_open;
     generate_content := toy_generate_content;
     io_buffer_size := 4 |}.

Definition damaged_pdf : UploadedFile :=
  toy_pdf "damaged.pdf" ["Page1 text"; "damaged"; "Page3 text"].

(** A document of the toy format with no page: four bytes. *)
Definition tiny_pdf : UploadedFile := toy_pdf "tiny.pdf" [].

Definition accents_pdf : UploadedFile :=
  toy_pdf "accents.pdf"
    [String "233"%char (String "t"%char (String "233"%char EmptyString));
     "2024"].

(** The toy library with a write buffer of 4096 bytes. *)
Definition toy_libs_4096 : Libraries :=
  {| page := string;
     fitz_open := toy_fitz_open;
     get_text := fun pg => Ret pg;
     pil_open := toy_pil_open;
     generate_content := toy_generate_content;
     io_buffer_size := 4096 |}.

(** The run a click on the feedback button triggers: the feedback button
    reports the click, the query button does not. *)
Definition feedback_click (key : option string) (f : option UploadedFile)
    (q : string) (v : verdict) (fb : string) : Inputs :=
  {| in_api_key := key; in_uploaded_file := f; in_query := q;
     in_submit := false; in_validation := v; in_feedback := fb;
     in_submit_feedback := true |}.

(** A world with a key and a log of one line. *)
Definition one_line_logged : World :=
  set_feedback_log (Some ("earlier line" ++ String newline EmptyString)%string)
    (set_genai_key (Some "key") initial_world).

(** * Properties *)

(** ** Strings and lists *)

Lemma append_nil_r (s : string) : (s ++ EmptyString)%string = s.
Proof. induction s as [|c s IH]; simpl; [reflexivity | now rewrite IH]. Qed.

Lemma append_assoc (a b c : string) :
  ((a ++ b) ++ c)%string = (a ++ (b ++ c))%string.
Proof. induction a as [|x a IH]; simpl; [reflexivity | now rewrite IH]. Qed.

Lemma update_nth_last {A : Type} (f : A -> A) (d : list A) (x : A) :
  update_nth (length d) f (d ++ [x]) = d ++ [f x].
Proof. induction d as [|y d IH]; simpl; [reflexivity | now rewrite IH]. Qed.

Lemma nth_error_last {A : Type} (d : list A) (x : A) :
  nth_error (d ++ [x]) (length d) = Some x.
Proof. induction d as [|y d IH]; simpl; [reflexivity | exact IH]. Qed.

Section Properties.

Context {L : Libraries}.

(** ** The model query client *)

(** What [get_gemini_response] does, case by case. *)
Lemma get_gemini_response_run (q prompt : string) (parts : list part) (w : World) :
  get_gemini_response q parts prompt w =
  match parts with
  | [] =>
      (Ret None,
       set_ui (fun l => l ++ [st_error "Error with Gemini model: list index out of range"]) w)
  | p0 :: _ =>
      let r := Request "gemini-1.5-flash" [CText q; CPart p0; CText prompt] in
      let w1 := set_requests (fun l => l ++ [r]) w in
      match generate_content (genai_key w) (requests w) r with
      | Ret text => (Ret (Some text), w1)
      | Raise e =>
          (Ret None,
           set_ui (fun l => l ++ [st_error ("Error with Gemini model: " ++ exn_str e)]) w1)
      end
  end.
Proof.
  unfold get_gemini_response, try_except, bind, index0, model_generate_content.
  destruct parts as [|p0 rest]; simpl; [reflexivity|].
  destruct (generate_content _ _ _); reflexivity.
Qed.

(** C8. Whatever the remote call does, [get_gemini_response] returns to its
    caller and never raises. When the call fails with an exception [e] the
    page gets the error message that carries [str(e)] and the result is
    [None]; when it succeeds the result is the generated text and nothing
    is displayed; one request is sent in both cases. With no input unit
    at all the failure is the index error, caught in the same way before
    any request. *)
Theorem get_gemini_response_catches (q prompt : string) (parts : list part)
    (w : World) :
  let run := get_gemini_response q parts prompt w in
  (exists result, fst run = Ret result) /\
  match parts with
  | [] =>
      fst run = Ret None /\
      requests (snd run) = requests w /\
      ui (snd run)
      = ui w ++ [st_error "Error with Gemini model: list index out of range"]
  | p0 :: _ =>
      let r := Request "gemini-1.5-flash" [CText q; CPart p0; CText prompt] in
      requests (snd run) = requests w ++ [r] /\
      match generate_content (genai_key w) (requests w) r with
      | Ret text =>
          fst run = Ret (Some text) /\ ui (snd run) = ui w
      | Raise e =>
          fst run = Ret None /\
          ui (snd run)
          = ui w ++ [st_error ("Error with Gemini model: " ++ exn_str e)]
      end
  end.
Proof.
  cbv zeta. rewrite get_gemini_response_run.
  destruct parts as [|p0 rest]; cbv zeta.
  - simpl. eauto.
  - destruct (generate_content _ _ _); simpl; eauto.
Qed.

(** C10. Only the first element of [image_parts] counts: two lists with
    the same first element (or both empty) give the same result and the
    same world, and with a first element [p0] the request sent is
    [[input_text, p0, prompt]]. *)
Theorem get_gemini_response_first_only (q prompt : string)
    (l1 l2 : list part) (w : World) :
  hd_error l1 = hd_error l2 ->
  get_gemini_response q l1 prompt w = get_gemini_response q l2 prompt w /\
  (forall p0, hd_error l1 = Some p0 ->
     requests (snd (get_gemini_response q l1 prompt w)) =
     requests w ++ [Request "gemini-1.5-flash" [CText q; CPart p0; CText prompt]]).
Proof.
  intros H. rewrite !get_gemini_response_run. split.
  - destruct l1 as [|a l1], l2 as [|b l2]; simpl in H; try discriminate;
      [reflexivity|]. injection H as ->. reflexivity.
  - intros p0 Hp. destruct l1 as [|a l1]; simpl in Hp; [discriminate|].
    injection Hp as ->. simpl.
    destruct (generate_content _ _ _); reflexivity.
Qed.

(** ** The image adapter *)

Lemma input_image_setup_run (f : UploadedFile) (w : World) :
  input_image_setup (Some f) w = (Ret (Some [Part (up_type f) (up_data f)]), w).
Proof. reflexivity. Qed.

(** C6. For an upload of a supported image type, [input_image_setup] gives
    one part whose [mime_type] is the declared type and whose [data] is the
    content of the upload, byte for byte, wherever the read position is;
    it displays nothing. The upload block hands this part on as
    [image_data] once [Image.open] has accepted the file. *)
Theorem image_adapter_identity (f : UploadedFile) (w : World) :
  str_in (up_type f) image_types = true ->
  input_image_setup (Some f) w =
    (Ret (Some [Part (up_type f) (up_data f)]), w) /\
  (forall used, pil_open (up_data f) = Ret used ->
     fst (upload_column (Some f) w) =
       Ret (Some [Part (up_type f) (up_data f)], None)).
Proof.
  intros Ht. split; [reflexivity|].
  intros used Hp. unfold upload_column. unfold image_types in Ht.
  rewrite Ht. unfold bind, Image_open. rewrite Hp. reflexivity.
Qed.

(** ** The PDF text extractor *)

(** Closing the handle leaves in the file all that was written to it. *)
Lemma close_after_write (b : list byte) :
  close_handle (buffered_write b (TmpFile [] [] true)) = TmpFile b [] false.
Proof.
  unfold buffered_write, close_handle; simpl.
  destruct (length b <=? io_buffer_size)%nat; simpl; [reflexivity|].
  destruct (io_buffer_size <? length b)%nat; simpl;
    now rewrite ?app_nil_r.
Qed.

(** The texts of the pages [page_nums] are read in that order and put
    after [pdf_text]. *)
Lemma extract_pages_from (before rest : list page) (texts : list string)
    (pdf_text : string) :
  Forall2 (fun pg t => get_text pg = Ret t) rest texts ->
  extract_pages (before ++ rest) (seq (length before) (length rest)) pdf_text
  = Ret (pdf_text ++ join_texts texts)%string.
Proof.
  intros H. revert before pdf_text.
  induction H as [|pg t rest texts Hpg _ IH]; intros before pdf_text; simpl.
  - now rewrite append_nil_r.
  - rewrite nth_error_app2, Nat.sub_diag by lia. simpl. rewrite Hpg.
    replace (before ++ pg :: rest) with ((before ++ [pg]) ++ rest)
      by now rewrite <- app_assoc.
    replace (S (length before)) with (length (before ++ [pg]))
      by (rewrite length_app; simpl; lia).
    rewrite IH. now rewrite append_assoc.
Qed.

Lemma extract_pages_all (doc : list page) (texts : list string) :
  Forall2 (fun pg t => get_text pg = Ret t) doc texts ->
  extract_pages doc (seq 0 (length doc)) EmptyString = Ret (join_texts texts).
Proof. intros H. exact (extract_pages_from [] doc texts EmptyString H). Qed.

(** What [process_pdf] does, case by case. *)
Lemma process_pdf_run (f : UploadedFile) (w : World) :
  process_pdf f w =
  match extraction (skipn (up_pos w) (up_data f)) with
  | Ret text => (Ret (Some text), after_process_pdf f w)
  | Raise e =>
      (Ret None,
       set_ui (fun l => l ++ [st_error ("Error processing PDF: " ++ exn_str e)])
         (after_process_pdf f w))
  end.
Proof.
  unfold process_pdf, extraction, after_process_pdf, seen_at_open.
  unfold try_except, bind, finally, NamedTemporaryFile, read, tmp_write,
    tmp_close, fitz_open_path, lift, emit, ret.
  destruct w as [u k rq d fl pos]; simpl.
  rewrite update_nth_last, nth_error_last.
  set (b := skipn pos (up_data f)).
  destruct (fitz_open (tmp_disk (buffered_write b (TmpFile [] [] true))))
    as [doc|e]; simpl.
  - destruct (extract_pages doc (seq 0 (length doc)) EmptyString); simpl;
      unfold set_tmpdir, set_ui; simpl;
      now rewrite !update_nth_last, close_after_write.
  - unfold set_tmpdir, set_ui; simpl.
    now rewrite !update_nth_last, close_after_write.
Qed.

(** A chunk longer than the buffer is in the file when the parser opens
    it; a chunk that fits in the buffer is not there yet. *)
Lemma seen_at_open_long (b : list byte) :
  io_buffer_size < length b -> seen_at_open b = b.
Proof.
  intros H. unfold seen_at_open, buffered_write; simpl.
  destruct (Nat.leb_spec (length b) io_buffer_size) as [Hle|_]; [lia|].
  destruct (Nat.ltb_spec io_buffer_size (length b)) as [_|Hge]; [|lia].
  reflexivity.
Qed.

Lemma seen_at_open_short (b : list byte) :
  length b <= io_buffer_size -> seen_at_open b = [].
Proof.
  intros H. unfold seen_at_open, buffered_write; simpl.
  destruct (Nat.leb_spec (length b) io_buffer_size) as [_|Hgt]; [|lia].
  reflexivity.
Qed.

(** X18. When the parser opens the temporary copy of the upload as a
    document with pages 0 to N-1 and each page gives its text,
    [process_pdf] returns these texts one after the other in the order of
    the pages, with nothing in between, and displays nothing. *)
Theorem process_pdf_concatenates (f : UploadedFile) (w : World)
    (pages : list page) (texts : list string) :
  fitz_open (seen_at_open (skipn (up_pos w) (up_data f))) = Ret pages ->
  Forall2 (fun pg t => get_text pg = Ret t) pages texts ->
  fst (process_pdf f w) = Ret (Some (join_texts texts)) /\
  ui (snd (process_pdf f w)) = ui w.
Proof.
  intros Hopen Htexts. rewrite process_pdf_run. unfold extraction.
  rewrite Hopen, (extract_pages_all _ _ Htexts). split; reflexivity.
Qed.

(** C4, as the code has it. Every call of [process_pdf] returns to its
    caller and leaves one more file in the temporary directory: the copy
    of the bytes read from the upload, flushed and closed, not removed.
    This is so when the extraction succeeds and when it fails. *)
Theorem process_pdf_keeps_temp_file (f : UploadedFile) (w : World) :
  (exists r, fst (process_pdf f w) = Ret r) /\
  tmpdir (snd (process_pdf f w)) =
    tmpdir w ++ [TmpFile (skipn (up_pos w) (up_data f)) [] false].
Proof.
  rewrite process_pdf_run.
  destruct (extraction _); simpl; split; eauto.
Qed.

(** ** The upload block *)

(** What the block does with a PDF, case by case. *)
Lemma upload_column_pdf_run (f : UploadedFile) (w : World) :
  up_type f = "application/pdf" ->
  upload_column (Some f) w =
  match extraction (skipn (up_pos w) (up_data f)) with
  | Ret EmptyString =>
      (Ret (Some [Part "text/plain" []], Some EmptyString),
       after_process_pdf f w)
  | Ret (String c t) =>
      (Ret (Some [Part "text/plain" (encode (String c t))], Some (String c t)),
       set_ui (fun l => l ++ [st_subheader "Uploaded PDF Content Preview";
                             st_text_area "PDF Content"
                               (substring 0 1500 (String c t) ++ "...")])
         (after_process_pdf f w))
  | Raise e =>
      (Raise (Exn "AttributeError" "'NoneType' object has no attribute 'encode'"),
       set_ui (fun l => l ++ [st_error ("Error processing PDF: " ++ exn_str e)])
         (after_process_pdf f w))
  end.
Proof.
  intros Ht. unfold upload_column. rewrite Ht.
  change (str_in "application/pdf" ["image/jpeg"; "image/png"; "image/jpg"])
    with false.
  change ("application/pdf" =? "application/pdf")%string with true.
  cbv iota. unfold bind at 1. rewrite process_pdf_run.
  destruct (extraction _) as [[|c t]|e]; try reflexivity.
  unfold bind, emit, ret, encode_method, set_ui; simpl.
  now rewrite <- app_assoc.
Qed.

(** What the block does with a type it does not know: nothing. *)
Lemma upload_column_unsupported (f : UploadedFile) (w : World) :
  supported (up_type f) = false ->
  upload_column (Some f) w = (Ret (None, None), w).
Proof.
  unfold supported, image_types. intros H.
  apply orb_false_elim in H as [Hi Hp].
  unfold upload_column. now rewrite Hi, Hp.
Qed.

(** A run of the script, block by block. *)
Lemma script_run (i : Inputs) (w : World) :
  script i w =
  match upload_column (in_uploaded_file i)
          (set_ui (fun l => l ++ [st_title "Purchase Order Automation System"])
             (snd (startup (in_api_key i) w))) with
  | (Ret iv, w2) => question_column i (fst iv) w2
  | (Raise e, w2) => (Raise e, w2)
  end.
Proof.
  unfold script, bind, startup.
  destruct (in_api_key i); reflexivity.
Qed.

Lemma startup_requests (key : option string) (w : World) :
  requests (snd (startup key w)) = requests w.
Proof. destruct key; reflexivity. Qed.

(** The question block when there is no input unit. *)
Lemma question_column_no_unit (i : Inputs) (w : World) :
  requests (snd (question_column i None w)) = requests w /\
  (in_submit i = true ->
   In (st_warning "Please upload an image or PDF and enter a query.")
      (ui (snd (question_column i None w)))).
Proof.
  unfold question_column, bind, emit, ret, log_feedback, load_response, raise.
  destruct (in_submit i), (in_submit_feedback i); simpl;
    (split; [reflexivity|]); intros Hsub; try discriminate;
    rewrite !in_app_iff; simpl; tauto.
Qed.

(** C1, as the code has it. For an upload whose declared type is not one
    of the four supported ones, the upload block gives no input unit
    ([image_data] stays [None]), displays nothing and raises nothing; the
    run sends no request to the model, and when the query button was
    clicked the page shows the warning that asks for an image or PDF. *)
Theorem unsupported_type_ignored (f : UploadedFile) (w : World) :
  supported (up_type f) = false ->
  upload_column (Some f) w = (Ret (None, None), w) /\
  forall i : Inputs,
    in_uploaded_file i = Some f ->
    requests (snd (script i w)) = requests w /\
    (in_submit i = true ->
     In (st_warning "Please upload an image or PDF and enter a query.")
        (ui (snd (script i w)))).
Proof.
  intros H. split; [now apply upload_column_unsupported|].
  intros i Hf. rewrite script_run, Hf.
  rewrite upload_column_unsupported by assumption. cbn [fst].
  destruct (question_column_no_unit i
              (set_ui (fun l => l ++ [st_title "Purchase Order Automation System"])
                 (snd (startup (in_api_key i) w)))) as [Hrq Hui].
  split; [|exact Hui].
  rewrite Hrq. simpl. apply startup_requests.
Qed.

(** A PDF whose extraction fails ends the run with the exception of
    [encode], whatever the buttons say. *)
Lemma failed_extraction_ends_run (i : Inputs) (f : UploadedFile) (w : World)
    (e : exn) :
  in_uploaded_file i = Some f ->
  up_type f = "application/pdf" ->
  extraction (skipn (up_pos (snd (startup (in_api_key i) w))) (up_data f))
  = Raise e ->
  fst (script i w)
  = Raise (Exn "AttributeError" "'NoneType' object has no attribute 'encode'").
Proof.
  intros Hf Ht He. rewrite script_run, Hf, upload_column_pdf_run by assumption.
  cbn [up_pos set_ui]. rewrite He. reflexivity.
Qed.

(** An image the decoder rejects ends the run with the decoder's
    exception: [Image.open] is called outside any [try]. *)
Lemma rejected_image_ends_run (i : Inputs) (f : UploadedFile) (w : World)
    (e : exn) :
  in_uploaded_file i = Some f ->
  str_in (up_type f) image_types = true ->
  pil_open (up_data f) = Raise e ->
  fst (script i w) = Raise e.
Proof.
  intros Hf Ht He. rewrite script_run, Hf. unfold upload_column.
  unfold image_types in Ht. rewrite Ht.
  unfold bind at 1. unfold Image_open.
  rewrite He. reflexivity.
Qed.

(** A feedback submission in a run that did not call the model ends the
    run with the exception of the unbound name. *)
Lemma feedback_without_response_ends_run (i : Inputs)
    (image_data : option (list part)) (w : World) :
  in_submit i = true ->
  in_submit_feedback i = true ->
  truthy_list image_data && truthy_str (Some (in_query i)) = false ->
  fst (question_column i image_data w)
  = Raise (Exn "NameError" "name 'response' is not defined") /\
  feedback_log (snd (question_column i image_data w)) = feedback_log w.
Proof.
  intros Hs Hf Hguard. unfold question_column.
  rewrite Hs, Hf, Hguard. split; reflexivity.
Qed.

(** ** The feedback log *)

Lemma printable_app (a b : string) :
  printable (a ++ b) = printable a && printable b.
Proof.
  induction a as [|c a IH]; simpl; [reflexivity|].
  now rewrite IH, andb_assoc.
Qed.

Lemma printable_no_newline (s : string) :
  printable s = true -> has_char newline s = false.
Proof.
  induction s as [|c s IH]; cbn [printable has_char]; [reflexivity|].
  intros H. apply andb_true_iff in H as [Hc Hs]. rewrite (IH Hs), orb_false_r.
  destruct (Ascii.eqb newline c) eqn:E; [|reflexivity].
  apply Ascii.eqb_eq in E. subst c. discriminate Hc.
Qed.

Ltac each_char c :=
  destruct c as [[|] [|] [|] [|] [|] [|] [|] [|]].

Lemma repr_char_printable_squote (c : ascii) :
  printable (repr_char squote c) = true.
Proof. each_char c; reflexivity. Qed.

Lemma repr_char_printable_dquote (c : ascii) :
  printable (repr_char dquote c) = true.
Proof. each_char c; reflexivity. Qed.

Lemma repr_quote_cases (s : string) :
  repr_quote s = squote \/ repr_quote s = dquote.
Proof.
  unfold repr_quote.
  destruct (has_char squote s && negb (has_char dquote s)); auto.
Qed.

Lemma repr_body_printable (quote : ascii) (s : string) :
  quote = squote \/ quote = dquote ->
  printable (repr_body quote s) = true.
Proof.
  intros Hq. induction s as [|c s IH]; cbn [repr_body]; [reflexivity|].
  rewrite printable_app, IH, andb_true_r.
  destruct Hq as [-> | ->];
    [apply repr_char_printable_squote | apply repr_char_printable_dquote].
Qed.

(** The [repr] of a string has printable characters only. *)
Lemma repr_str_printable (s : string) : printable (repr_str s) = true.
Proof.
  unfold repr_str. simpl.
  rewrite printable_app, (repr_body_printable _ _ (repr_quote_cases s)).
  destruct (repr_quote_cases s) as [-> | ->]; reflexivity.
Qed.

Lemma repr_opt_printable (v : option string) : printable (repr_opt v) = true.
Proof. destruct v; [apply repr_str_printable | reflexivity]. Qed.

Lemma str_feedback_log_printable (d : FeedbackRecord) :
  printable (str_feedback_log d) = true.
Proof.
  unfold str_feedback_log.
  rewrite !printable_app, !repr_str_printable, repr_opt_printable.
  reflexivity.
Qed.

(** A plain string is shown as it is, between single quotes. *)
Lemma plain_no_squote (s : string) :
  plain s = true -> has_char squote s = false.
Proof.
  induction s as [|c s IH]; cbn [plain has_char]; [reflexivity|].
  rewrite !andb_true_iff. intros [[[_ Hq] _] Hs].
  rewrite (IH Hs), orb_false_r.
  rewrite Ascii.eqb_sym. now apply negb_true_iff.
Qed.

Lemma repr_body_plain (s : string) :
  plain s = true -> repr_body squote s = s.
Proof.
  induction s as [|c s IH]; cbn [plain repr_body]; [reflexivity|].
  rewrite !andb_true_iff. intros [[[Hp Hq] Hb] Hs]. rewrite (IH Hs).
  revert Hp Hq Hb. each_char c; simpl; intros; try discriminate; reflexivity.
Qed.

Lemma repr_str_plain (s : string) :
  plain s = true ->
  repr_str s = String squote (s ++ String squote EmptyString).
Proof.
  intros H. unfold repr_str, repr_quote.
  rewrite (plain_no_squote s H). simpl. now rewrite repr_body_plain.
Qed.

Lemma occurs_in_refl (v : string) : occurs_in v v.
Proof. exists EmptyString, EmptyString. now rewrite append_nil_r. Qed.

Lemma occurs_in_app_r (v a b : string) :
  occurs_in v b -> occurs_in v (a ++ b).
Proof.
  intros [x [y ->]]. exists (a ++ x)%string, y. now rewrite append_assoc.
Qed.

Lemma occurs_in_app_l (v a b : string) :
  occurs_in v a -> occurs_in v (a ++ b).
Proof.
  intros [x [y ->]]. exists x, (y ++ b)%string. now rewrite !append_assoc.
Qed.

Lemma occurs_in_trans (a b c : string) :
  occurs_in a b -> occurs_in b c -> occurs_in a c.
Proof.
  intros Hab [x [y ->]].
  apply occurs_in_app_r, occurs_in_app_l, Hab.
Qed.

Lemma occurs_in_repr_plain (v : string) :
  plain v = true -> occurs_in v (repr_str v).
Proof.
  intros H. rewrite (repr_str_plain v H).
  exists (String squote EmptyString), (String squote EmptyString).
  reflexivity.
Qed.

Create HintDb occurs.
#[local] Hint Resolve occurs_in_refl occurs_in_app_r occurs_in_app_l : occurs.

(** The rendering of each of the four values is in the line. *)
Lemma str_feedback_log_fields (d : FeedbackRecord) :
  let line := str_feedback_log d in
  occurs_in (repr_str (fb_query d)) line /\
  occurs_in (repr_opt (fb_response d)) line /\
  occurs_in (repr_str (fb_validation d)) line /\
  occurs_in (repr_str (fb_feedback d)) line.
Proof.
  unfold str_feedback_log. cbv zeta. repeat split; auto 20 with occurs.
Qed.

(** Reading back what [repr] wrote. *)
Lemma read_body_char_squote (c : ascii) (tail : string) :
  read_body squote (repr_char squote c ++ tail)
  = push c (read_body squote tail).
Proof. each_char c; reflexivity. Qed.

Lemma read_body_char_dquote (c : ascii) (tail : string) :
  read_body dquote (repr_char dquote c ++ tail)
  = push c (read_body dquote tail).
Proof. each_char c; reflexivity. Qed.

Lemma read_body_repr (quote : ascii) (v rest : string) :
  quote = squote \/ quote = dquote ->
  read_body quote (repr_body quote v ++ String quote rest) = Some (v, rest).
Proof.
  intros Hq. induction v as [|c v IH]; cbn [repr_body].
  - destruct Hq as [-> | ->]; reflexivity.
  - rewrite append_assoc.
    destruct Hq as [-> | ->];
      [rewrite read_body_char_squote | rewrite read_body_char_dquote];
      now rewrite IH.
Qed.

Lemma read_repr_repr_str (v rest : string) :
  read_repr (repr_str v ++ rest) = Some (v, rest).
Proof.
  unfold repr_str. cbn [append read_repr].
  rewrite append_assoc. cbn [append].
  rewrite (read_body_repr _ v rest (repr_quote_cases v)).
  destruct (repr_quote_cases v) as [-> | ->]; reflexivity.
Qed.

Lemma strip_app (p s : string) : strip p (p ++ s) = Some s.
Proof.
  induction p as [|c p IH]; cbn [strip append]; [reflexivity|].
  now rewrite Ascii.eqb_refl.
Qed.

Lemma strip_None_repr_str (v rest : string) :
  strip "None" (repr_str v ++ rest) = None.
Proof.
  unfold repr_str.
  destruct (repr_quote_cases v) as [-> | ->]; reflexivity.
Qed.

Lemma read_repr_opt_repr_opt (v : option string) (rest : string) :
  read_repr_opt (repr_opt v ++ rest) = Some (v, rest).
Proof.
  unfold read_repr_opt. destruct v as [v|]; cbn [repr_opt].
  - now rewrite strip_None_repr_str, read_repr_repr_str.
  - reflexivity.
Qed.

(** The line determines the four values. *)
Lemma read_feedback_log_str (d : FeedbackRecord) :
  read_feedback_log (str_feedback_log d) = Some d.
Proof.
  destruct d as [query response validation feedback].
  unfold read_feedback_log, str_feedback_log.
  rewrite strip_app, read_repr_repr_str.
  rewrite strip_app, read_repr_opt_repr_opt.
  rewrite strip_app, read_repr_repr_str.
  rewrite strip_app, read_repr_repr_str.
  reflexivity.
Qed.

(** The write of lines 127 to 136, reached with [response] bound. With
    any query, any response (a text or [None]), any verdict and any
    feedback text it completes and leaves in the log file the text it had
    before followed by one line and the newline that ends it. The line
    has printable characters only, so no line break; it holds the [repr]
    of each of the four values, the four values can be read back from it,
    and each value that is plain text is in the line as it is. *)
Theorem feedback_appends_one_line (query : string) (response : option string)
    (validation feedback : string) (w : World) :
  let d := Build_FeedbackRecord query response validation feedback in
  let line := str_feedback_log d in
  let run := log_feedback query (Some response) validation feedback w in
  fst run = Ret tt /\
  feedback_log (snd run)
    = Some (log_text w ++ line ++ String newline EmptyString)%string /\
  printable line = true /\
  has_char newline line = false /\
  (occurs_in (repr_str query) line /\
   occurs_in (repr_opt response) line /\
   occurs_in (repr_str validation) line /\
   occurs_in (repr_str feedback) line) /\
  read_feedback_log line = Some d /\
  (forall v : string,
     plain v = true ->
     v = query \/ response = Some v \/ v = validation \/ v = feedback ->
     occurs_in v line).
Proof.
  cbv zeta.
  set (d := Build_FeedbackRecord query response validation feedback).
  pose proof (str_feedback_log_printable d) as Hp.
  pose proof (str_feedback_log_fields d) as Hf. cbv zeta in Hf.
  split; [reflexivity|]. split.
  - unfold log_feedback, bind, load_response, append_log, emit, ret, log_text.
    simpl. destruct (feedback_log w); reflexivity.
  - split; [exact Hp|]. split; [now apply printable_no_newline|].
    split; [exact Hf|]. split; [apply read_feedback_log_str|].
    destruct Hf as (Hq & Hr & Hv & Hfb).
    intros v Hplain [-> | [-> | [-> | ->]]];
      eapply occurs_in_trans; eauto using occurs_in_repr_plain.
Qed.

End Properties.

(** * Concrete runs *)

(** The three pages of scenario B. *)
Lemma process_pdf_concatenates_witness :
  @fitz_open toy_libs (seen_at_open (L := toy_libs) (up_data three_pages))
  = Ret ["Page1 text"; "Page2 text"; "Page3 text"] /\
  fst (process_pdf (L := toy_libs) three_pages initial_world)
  = Ret (Some "Page1 textPage2 textPage3 text").
Proof.
  split; [reflexivity|].
  refine (proj1 (process_pdf_concatenates (L := toy_libs)
                   three_pages initial_world
                   ["Page1 text"; "Page2 text"; "Page3 text"]
                   ["Page1 text"; "Page2 text"; "Page3 text"] _ _)).
  - reflexivity.
  - repeat constructor.
Defined.

(** Scenario A: the part made of [po.png]. *)
Lemma image_adapter_identity_witness :
  str_in (up_type po_png) image_types = true /\
  input_image_setup (Some po_png) initial_world
  = (Ret (Some [Part "image/png" [x89; x50; x4e; x47; x0d; x0a; x1a; x0a]]),
     initial_world) /\
  fst (upload_column (L := toy_libs) (Some po_png) initial_world)
  = Ret (Some [Part "image/png" [x89; x50; x4e; x47; x0d; x0a; x1a; x0a]], None).
Proof.
  split; [reflexivity|].
  pose proof (image_adapter_identity (L := toy_libs) po_png initial_world
                eq_refl) as [Hsetup Hcolumn].
  split; [exact Hsetup|].
  exact (Hcolumn 8 eq_refl).
Defined.

(** Two lists that differ after their first element. *)
Lemma get_gemini_response_first_only_witness :
  let p := Part "image/png" [x89] in
  let l1 := [p; Part "text/plain" []] in
  let l2 := [p; Part "image/jpeg" [xff; xd8]; Part "text/plain" [x41]] in
  hd_error l1 = hd_error l2 /\
  get_gemini_response (L := toy_libs) "Total?" l1 input_prompt initial_world
  = get_gemini_response (L := toy_libs) "Total?" l2 input_prompt initial_world.
Proof.
  cbv zeta. split; [reflexivity|].
  refine (proj1 (get_gemini_response_first_only (L := toy_libs)
                   "Total?" input_prompt _ _ initial_world _)).
  reflexivity.
Defined.

(** Scenario C, as the code has it: a text file declared as [text/plain]. *)
Lemma unsupported_type_ignored_witness :
  supported (up_type notes_txt) = false /\
  upload_column (L := toy_libs) (Some notes_txt) initial_world
  = (Ret (None, None), initial_world) /\
  requests (snd (script (L := toy_libs)
                   (ask (Some "key") (Some notes_txt) "Total?") initial_world))
  = [].
Proof.
  split; [reflexivity|].
  pose proof (unsupported_type_ignored (L := toy_libs) notes_txt initial_world
                eq_refl) as [Hcolumn Hscript].
  split; [exact Hcolumn|].
  exact (proj1 (Hscript (ask (Some "key") (Some notes_txt) "Total?") eq_refl)).
Defined.

(** C1, as the spec states it, fails on [notes.txt]: the upload block ends
    normally, without an exception and without a message of any kind, and
    a whole run with a question displays no error either. *)
Lemma unsupported_type_no_error :
  supported "text/plain" = false /\
  upload_column (L := toy_libs) (Some notes_txt) initial_world
  = (Ret (None, None), initial_world) /\
  ui (snd (upload_column (L := toy_libs) (Some notes_txt) initial_world)) = [] /\
  let run := script (L := toy_libs)
               (ask (Some "key") (Some notes_txt) "Total?") initial_world in
  fst run = Ret tt /\ errors_of (ui (snd run)) = [].
Proof. repeat split; reflexivity. Qed.

(** C4, as the spec states it, fails: after the call the temporary
    directory is not what it was, when the extraction succeeds
    ([po.pdf]) and when it fails ([broken.pdf]); two calls leave two
    files. *)
Lemma temp_file_not_removed :
  let ok := process_pdf (L := toy_libs) three_pages initial_world in
  let ko := process_pdf (L := toy_libs) broken_pdf initial_world in
  fst ok = Ret (Some "Page1 textPage2 textPage3 text") /\
  tmpdir (snd ok) <> tmpdir initial_world /\
  fst ko = Ret None /\
  tmpdir (snd ko) = [TmpFile (up_data broken_pdf) [] false] /\
  length (tmpdir (snd (process_pdf (L := toy_libs) three_pages
                         (set_up_pos 0 (snd ok))))) = 2.
Proof. cbv zeta. repeat split; try reflexivity. discriminate. Qed.

(** C5, as the spec states it, fails: with no key in the environment a
    run with [po.png] and a question sends the request to the service.
    Where the client library finds credentials of its own the answer
    comes back and is displayed; where it does not, the failure is
    reported after the call, as an error of the model. *)
Lemma no_credential_request_sent :
  let i := ask None (Some po_png) "Total?" in
  let r := Request "gemini-1.5-flash"
             [CText "Total?"; CPart (Part "image/png" (up_data po_png));
              CText input_prompt] in
  let adc := script (L := toy_libs_adc) i initial_world in
  let run := script (L := toy_libs) i initial_world in
  genai_key (snd adc) = None /\
  requests (snd adc) = [r] /\
  In (st_write "The total is $500") (ui (snd adc)) /\
  requests (snd run) = [r] /\
  errors_of (ui (snd run))
  = ["Google API Key is not set. Check your .env file.";
     "Error with Gemini model: No API_KEY or ADC found."].
Proof. cbv zeta. repeat split; try reflexivity. simpl. tauto. Qed.

(** C2 fails on these runs. A PDF the parser rejects: [process_pdf]
    reports the error and returns [None], and the upload block then calls
    [encode] on [None]; the run ends there with an [AttributeError] nobody
    catches, before the question block is shown. A feedback submission in
    a run where the model was not called: reading [response] ends the run
    with a [NameError], and nothing is logged. An image the decoder
    rejects: [Image.open] ends the run in the same way. *)
Theorem uncaught_faults :
  let pdf := script (L := toy_libs) (no_action (Some "key") (Some broken_pdf))
               initial_world in
  let fb := script (L := toy_libs)
              (send_feedback (Some "key") None "Total?" No "wrong") initial_world in
  let img := script (L := toy_libs) (no_action (Some "key") (Some fake_png))
               initial_world in
  fst (process_pdf (L := toy_libs) broken_pdf initial_world) = Ret None /\
  fst pdf = Raise (Exn "AttributeError"
                       "'NoneType' object has no attribute 'encode'") /\
  ui (snd pdf) = [st_title "Purchase Order Automation System";
                  st_error "Error processing PDF: Failed to open file"] /\
  fst fb = Raise (Exn "NameError" "name 'response' is not defined") /\
  feedback_log (snd fb) = None /\
  fst img = Raise (Exn "UnidentifiedImageError" "cannot identify image file").
Proof. cbv zeta. repeat split; reflexivity. Qed.

(** C3 fails on a scanned page: the extraction succeeds with the empty
    text, the upload block makes of it a text part with no bytes, and a
    run with a question sends this part to the model. *)
Theorem empty_text_becomes_unit :
  fst (process_pdf (L := toy_libs) scanned_pdf initial_world)
  = Ret (Some EmptyString) /\
  fst (upload_column (L := toy_libs) (Some scanned_pdf) initial_world)
  = Ret (Some [Part "text/plain" []], Some EmptyString) /\
  requests (snd (script (L := toy_libs)
                   (ask (Some "key") (Some scanned_pdf) "Total?")
                   initial_world))
  = [Request "gemini-1.5-flash"
       [CText "Total?"; CPart (Part "text/plain" []); CText input_prompt]].
Proof. repeat split; reflexivity. Qed.

(** C7 fails on a valid PDF that fits in the write buffer. The three
    pages of scenario B are 37 bytes, a document the parser opens with
    three pages of text. [process_pdf] writes them to the handle and
    opens the path before any flush: the parser finds an empty file and
    fails, and the function returns [None] with the parser's error, not
    the text of the pages. The bytes reach the file only when the handle
    is closed. *)
Theorem small_pdf_not_parsed :
  let run := process_pdf (L := toy_libs_4096) three_pages initial_world in
  length (up_data three_pages) = 37 /\
  @fitz_open toy_libs_4096 (up_data three_pages)
  = Ret ["Page1 text"; "Page2 text"; "Page3 text"] /\
  Forall2 (fun pg t => @get_text toy_libs_4096 pg = Ret t)
    ["Page1 text"; "Page2 text"; "Page3 text"]
    ["Page1 text"; "Page2 text"; "Page3 text"] /\
  seen_at_open (L := toy_libs_4096) (up_data three_pages) = [] /\
  fst run = Ret None /\
  ui (snd run) = [st_error "Error processing PDF: Cannot open empty file"] /\
  tmpdir (snd run) = [TmpFile (up_data three_pages) [] false].
Proof.
  cbv zeta. split; [reflexivity|]. split; [reflexivity|].
  split; [repeat constructor|]. repeat split; reflexivity.
Qed.

(** C9 fails on a click on the feedback button. The write to the log is
    inside the block of the query button: in the run the click triggers,
    where only the feedback button reports a click, the block is skipped,
    the log keeps its one line and no confirmation is shown, whatever the
    query, the verdict and the feedback. With both buttons reporting a
    click in a run that did not call the model, the run ends with the
    [NameError] before the write. *)
Theorem feedback_click_logs_nothing :
  let click := script (L := toy_libs)
                 (feedback_click (Some "key") (Some po_png) "Total?" Yes
                    EmptyString)
                 one_line_logged in
  let both := script (L := toy_libs)
                (send_feedback (Some "key") None "Total?" Yes EmptyString)
                one_line_logged in
  fst click = Ret tt /\
  feedback_log (snd click) = feedback_log one_line_logged /\
  ui (snd click) = [st_title "Purchase Order Automation System";
                    st_image "Uploaded PO Image";
                    st_subheader "Question and Response"] /\
  fst both = Raise (Exn "NameError" "name 'response' is not defined") /\
  feedback_log (snd both) = feedback_log one_line_logged.
Proof. cbv zeta. repeat split; reflexivity. Qed.

(** * Further properties *)

Section Further.

Context {L : Libraries}.

(** ** The extraction loop *)

(** The loop over the pages from [before] on: either every page gave its
    text and the result is these texts after [pdf_text], or the result is
    the exception of a page. *)
Lemma extract_pages_cases (before rest : list page) (pdf_text : string) :
  match extract_pages (before ++ rest)
          (seq (length before) (length rest)) pdf_text with
  | Ret t =>
      exists texts,
        Forall2 (fun pg t => get_text pg = Ret t) rest texts /\
        t = (pdf_text ++ join_texts texts)%string
  | Raise e =>
      exists ok pg later texts,
        rest = ok ++ pg :: later /\
        Forall2 (fun pg t => get_text pg = Ret t) ok texts /\
        get_text pg = Raise e
  end.
Proof.
  revert before pdf_text.
  induction rest as [|pg rest IH]; intros before pdf_text; simpl.
  - exists []. split; [constructor | now rewrite append_nil_r].
  - rewrite nth_error_app2, Nat.sub_diag by lia. simpl.
    destruct (get_text pg) as [t|e] eqn:Hpg.
    + specialize (IH (before ++ [pg]) (pdf_text ++ t)%string).
      rewrite <- app_assoc, length_app in IH. simpl in IH.
      replace (length before + 1) with (S (length before)) in IH by lia.
      destruct (extract_pages _ _ _) as [t'|e].
      * destruct IH as [texts [Hall ->]]. exists (t :: texts).
        split; [now constructor | simpl; now rewrite append_assoc].
      * destruct IH as (ok & pg' & later & texts & -> & Hall & Hfail).
        exists (pg :: ok), pg', later, (t :: texts).
        repeat split; [now constructor | assumption].
    + exists [], pg, rest, []. repeat split; [constructor | assumption].
Qed.

Lemma extract_pages_doc_cases (doc : list page) :
  match extract_pages doc (seq 0 (length doc)) EmptyString with
  | Ret t =>
      exists texts,
        Forall2 (fun pg t => get_text pg = Ret t) doc texts /\
        t = join_texts texts
  | Raise e =>
      exists ok pg later texts,
        doc = ok ++ pg :: later /\
        Forall2 (fun pg t => get_text pg = Ret t) ok texts /\
        get_text pg = Raise e
  end.
Proof. exact (extract_pages_cases [] doc EmptyString). Qed.

(** The first page that fails stops the loop. *)
Lemma extract_pages_stops_from (before ok later : list page) (pg : page)
    (texts : list string) (e : exn) (pdf_text : string) :
  Forall2 (fun pg t => get_text pg = Ret t) ok texts ->
  get_text pg = Raise e ->
  extract_pages (before ++ ok ++ pg :: later)
    (seq (length before) (length (ok ++ pg :: later))) pdf_text = Raise e.
Proof.
  intros Hok Hfail. revert before pdf_text.
  induction Hok as [|p t ok texts Hp _ IH]; intros before pdf_text; simpl.
  - rewrite nth_error_app2, Nat.sub_diag by lia. simpl. now rewrite Hfail.
  - rewrite nth_error_app2, Nat.sub_diag by lia. simpl. rewrite Hp.
    specialize (IH (before ++ [p]) (pdf_text ++ t)%string).
    rewrite <- app_assoc, length_app in IH. simpl in IH.
    replace (length before + 1) with (S (length before)) in IH by lia.
    exact IH.
Qed.

(** ** [process_pdf], all cases *)

(** X1. All or nothing: when the parser opens the copy and a page fails
    to give its text after the pages before it succeeded, [process_pdf]
    returns [None], not the text gathered so far, and the page shows the
    error of that page. *)
Theorem process_pdf_all_or_nothing (f : UploadedFile) (w : World)
    (ok later : list page) (pg : page) (texts : list string) (e : exn) :
  fitz_open (seen_at_open (skipn (up_pos w) (up_data f)))
  = Ret (ok ++ pg :: later) ->
  Forall2 (fun pg t => get_text pg = Ret t) ok texts ->
  get_text pg = Raise e ->
  fst (process_pdf f w) = Ret None /\
  ui (snd (process_pdf f w))
  = ui w ++ [st_error ("Error processing PDF: " ++ exn_str e)].
Proof.
  intros Hopen Hok Hfail. rewrite process_pdf_run. unfold extraction.
  rewrite Hopen.
  pose proof (extract_pages_stops_from [] ok later pg texts e EmptyString
                Hok Hfail) as Hstop.
  cbn [app length] in Hstop. cbn [length]. rewrite Hstop.
  split; reflexivity.
Qed.

(** X2. The three ways [process_pdf] ends. It never raises. A text it
    returns is the text of every page of the document the parser opened,
    in order, and then nothing was displayed. It returns [None] only with
    an error message, and the exception reported is the one of the parser
    or the one of a page of the document: the loop itself never runs out
    of the pages. *)
Theorem process_pdf_result_cases (f : UploadedFile) (w : World) :
  let seen := seen_at_open (skipn (up_pos w) (up_data f)) in
  let run := process_pdf f w in
  match fst run with
  | Ret (Some t) =>
      ui (snd run) = ui w /\
      exists pages texts,
        fitz_open seen = Ret pages /\
        Forall2 (fun pg t => get_text pg = Ret t) pages texts /\
        t = join_texts texts
  | Ret None =>
      exists e,
        ui (snd run) = ui w ++ [st_error ("Error processing PDF: " ++ exn_str e)] /\
        (fitz_open seen = Raise e \/
         exists pages pg,
           fitz_open seen = Ret pages /\ In pg pages /\ get_text pg = Raise e)
  | Raise _ => False
  end.
Proof.
  cbv zeta. rewrite process_pdf_run. unfold extraction.
  destruct (fitz_open _) as [doc|e] eqn:Hopen.
  - pose proof (extract_pages_doc_cases doc) as H.
    destruct (extract_pages doc _ _) as [t|e]; simpl.
    + destruct H as [texts [Hall ->]]. split; [reflexivity|].
      exists doc, texts. auto.
    + destruct H as (ok & pg & later & texts & -> & _ & Hfail).
      exists e. split; [reflexivity|]. right.
      exists (ok ++ pg :: later), pg. repeat split; [|assumption].
      apply in_or_app. right. now left.
  - simpl. exists e. split; [reflexivity | now left].
Qed.

Lemma process_pdf_returns (f : UploadedFile) (w : World) :
  fst (process_pdf f w)
  = Ret (returned_for (seen_at_open (skipn (up_pos w) (up_data f)))).
Proof.
  rewrite process_pdf_run. unfold extraction, returned_for.
  destruct (fitz_open _) as [doc|e]; [|reflexivity].
  destruct (extract_pages doc _ _); reflexivity.
Qed.

Lemma process_pdf_up_pos (f : UploadedFile) (w : World) :
  up_pos (snd (process_pdf f w)) = Nat.max (up_pos w) (length (up_data f)).
Proof. rewrite process_pdf_run. destruct (extraction _); reflexivity. Qed.

Lemma process_pdf_tmpdir (f : UploadedFile) (w : World) :
  tmpdir (snd (process_pdf f w))
  = tmpdir w ++ [TmpFile (skipn (up_pos w) (up_data f)) [] false].
Proof. rewrite process_pdf_run. destruct (extraction _); reflexivity. Qed.

(** What [process_pdf] leaves alone. *)
Lemma process_pdf_frame (f : UploadedFile) (w : World) :
  requests (snd (process_pdf f w)) = requests w /\
  feedback_log (snd (process_pdf f w)) = feedback_log w /\
  genai_key (snd (process_pdf f w)) = genai_key w.
Proof. rewrite process_pdf_run. destruct (extraction _); auto. Qed.

(** X3. [process_pdf] reads the upload to its end and does not rewind it:
    a second call on the same file object copies no byte, so the parser
    is given an empty file whatever the upload holds, and one more, empty,
    file is left behind. *)
Theorem process_pdf_consumes_upload (f : UploadedFile) (w : World) :
  let w1 := snd (process_pdf f w) in
  up_pos w1 = Nat.max (up_pos w) (length (up_data f)) /\
  fst (process_pdf f w1) = Ret (returned_for []) /\
  tmpdir (snd (process_pdf f w1))
  = tmpdir w ++ [TmpFile (skipn (up_pos w) (up_data f)) [] false;
                 TmpFile [] [] false].
Proof.
  cbv zeta. split; [apply process_pdf_up_pos|].
  assert (Hnone : skipn (up_pos (snd (process_pdf f w))) (up_data f) = []).
  { rewrite process_pdf_up_pos. apply skipn_all2. lia. }
  split.
  - rewrite process_pdf_returns, Hnone.
    unfold seen_at_open, buffered_write; simpl.
    now destruct (0 <=? io_buffer_size)%nat, (io_buffer_size <? 0)%nat.
  - rewrite (process_pdf_tmpdir f (snd (process_pdf f w))), Hnone.
    rewrite process_pdf_tmpdir, <- app_assoc. reflexivity.
Qed.

(** X4. The copy is written through a buffered handle and opened by its
    path before the handle is flushed. An upload that fits in the buffer
    has not reached the file then: the parser is given an empty file and
    the result does not depend on the content of the upload. Only an
    upload longer than the buffer is parsed. *)
Theorem process_pdf_parses_what_left_the_buffer (f : UploadedFile) (w : World) :
  let b := skipn (up_pos w) (up_data f) in
  fst (process_pdf f w)
  = Ret (returned_for (if (length b <=? io_buffer_size)%nat then [] else b)).
Proof.
  cbv zeta. rewrite process_pdf_returns.
  destruct (Nat.leb_spec (length (skipn (up_pos w) (up_data f))) io_buffer_size).
  - now rewrite seen_at_open_short.
  - now rewrite seen_at_open_long.
Qed.

(** ** The upload block, all cases *)

Lemma process_pdf_extraction (f : UploadedFile) (w : World) (text : string) :
  fst (process_pdf f w) = Ret (Some text) ->
  extraction (skipn (up_pos w) (up_data f)) = Ret text.
Proof.
  rewrite process_pdf_run. destruct (extraction _); simpl; congruence.
Qed.

Lemma process_pdf_no_extraction (f : UploadedFile) (w : World) :
  fst (process_pdf f w) = Ret None ->
  exists e, extraction (skipn (up_pos w) (up_data f)) = Raise e.
Proof.
  rewrite process_pdf_run. destruct (extraction _) as [t|e]; simpl;
    [discriminate | eauto].
Qed.

(** What the block does with an image, case by case. *)
Lemma upload_column_image_run (f : UploadedFile) (w : World) :
  str_in (up_type f) image_types = true ->
  upload_column (Some f) w =
  match pil_open (up_data f) with
  | Ret used =>
      (Ret (Some [Part (up_type f) (up_data f)], None),
       set_ui (fun l => l ++ [st_image "Uploaded PO Image"])
         (set_up_pos (Nat.min used (length (up_data f))) w))
  | Raise e => (Raise e, w)
  end.
Proof.
  intros Ht. unfold upload_column. unfold image_types in Ht. rewrite Ht.
  unfold bind at 1. unfold Image_open.
  destruct (pil_open _); reflexivity.
Qed.

(** The three kinds of declared type. *)
Lemma file_type_cases (file_type : string) :
  str_in file_type image_types = true \/
  file_type = "application/pdf" \/
  supported file_type = false.
Proof.
  unfold supported.
  destruct (str_in file_type image_types); [now left|].
  destruct (String.eqb_spec file_type "application/pdf"); auto.
Qed.

(** The upload block sends nothing to the model, leaves the log and the
    key alone. *)
Lemma upload_column_frame (uploaded_file : option UploadedFile) (w : World) :
  requests (snd (upload_column uploaded_file w)) = requests w /\
  feedback_log (snd (upload_column uploaded_file w)) = feedback_log w /\
  genai_key (snd (upload_column uploaded_file w)) = genai_key w.
Proof.
  destruct uploaded_file as [f|]; [|now auto].
  destruct (file_type_cases (up_type f)) as [Hi | [Hp | Hu]].
  - rewrite upload_column_image_run by assumption.
    destruct (pil_open _); auto.
  - rewrite upload_column_pdf_run by assumption.
    destruct (extraction _) as [[|c t]|e]; auto.
  - rewrite upload_column_unsupported by assumption. auto.
Qed.

Lemma substring_0_length (n : nat) (s : string) :
  String.length (substring 0 n s) = Nat.min n (String.length s).
Proof.
  revert s. induction n as [|n IH]; intros [|c s]; simpl; auto.
Qed.

Lemma substring_0_prefix (n : nat) (s : string) :
  exists rest, s = (substring 0 n s ++ rest)%string.
Proof.
  revert s. induction n as [|n IH]; intros [|c s]; simpl.
  - now exists EmptyString.
  - now exists (String c s).
  - now exists EmptyString.
  - destruct (IH s) as [rest Hrest]. exists rest. now rewrite <- Hrest.
Qed.

(** X5. The preview of a PDF. When the extracted text is not empty the
    block shows a sub-header and a text area with the first 1500
    characters of the text followed by three dots; the dots are there
    also when the text is shorter and nothing was cut. When the text is
    empty, nothing is shown. *)
Theorem pdf_preview (f : UploadedFile) (w : World) (text : string) :
  up_type f = "application/pdf" ->
  fst (process_pdf f w) = Ret (Some text) ->
  match text with
  | EmptyString => ui (snd (upload_column (Some f) w)) = ui w
  | _ =>
      exists shown rest : string,
        ui (snd (upload_column (Some f) w))
        = ui w ++ [st_subheader "Uploaded PDF Content Preview";
                   st_text_area "PDF Content" (shown ++ "...")] /\
        text = (shown ++ rest)%string /\
        String.length shown = Nat.min 1500 (String.length text)
  end.
Proof.
  intros Ht Hrun. apply process_pdf_extraction in Hrun.
  rewrite upload_column_pdf_run, Hrun by assumption.
  destruct text as [|c t]; [reflexivity|].
  destruct (substring_0_prefix 1500 (String c t)) as [rest Hrest].
  exists (substring 0 1500 (String c t)), rest.
  split; [reflexivity|]. split; [exact Hrest|]. apply substring_0_length.
Qed.

Lemma encode_app (a b : string) :
  encode (a ++ b) = encode a ++ encode b.
Proof.
  induction a as [|c a IH]; simpl; [reflexivity|].
  now rewrite IH, app_assoc.
Qed.

Lemma encode_join_texts (texts : list string) :
  encode (join_texts texts) = concat (map encode texts).
Proof.
  induction texts as [|t texts IH]; simpl; [reflexivity|].
  now rewrite encode_app, IH.
Qed.

(** X6. The unit made of a PDF. When the parser opens the copy and every
    page gives its text, [image_data] is one part of type [text/plain]
    whose bytes are the UTF-8 encodings of the page texts, page after
    page, and [pdf_text] is the joined text. This holds for an empty
    text too: the part then has no bytes. *)
Theorem pdf_unit_bytes (f : UploadedFile) (w : World) (pages : list page)
    (texts : list string) :
  up_type f = "application/pdf" ->
  fitz_open (seen_at_open (skipn (up_pos w) (up_data f))) = Ret pages ->
  Forall2 (fun pg t => get_text pg = Ret t) pages texts ->
  fst (upload_column (Some f) w)
  = Ret (Some [Part "text/plain" (concat (map encode texts))],
         Some (join_texts texts)).
Proof.
  intros Ht Hopen Hall. rewrite upload_column_pdf_run by assumption.
  unfold extraction. rewrite Hopen, (extract_pages_all _ _ Hall).
  rewrite <- encode_join_texts.
  destruct (join_texts texts); reflexivity.
Qed.

Lemma decode_char (c : ascii) (tail : list byte) :
  decode (utf8_char c ++ tail) = option_map (String c) (decode tail).
Proof.
  destruct c as [[|] [|] [|] [|] [|] [|] [|] [|]]; reflexivity.
Qed.

Lemma utf8_char_length (c : ascii) :
  1 <= length (utf8_char c) <= 2.
Proof.
  unfold utf8_char. destruct (N_of_ascii c <? 128)%N; simpl; lia.
Qed.

(** X7. The encoding of the text loses nothing: the bytes of a text part
    read back as the text, so two different texts never give the same
    part; and a text of n characters takes between n and 2n bytes. *)
Theorem encode_decode (s : string) :
  decode (encode s) = Some s /\
  String.length s <= length (encode s) <= 2 * String.length s.
Proof.
  induction s as [|c s [IHd IHl]]; simpl; [split; [reflexivity | lia]|].
  split.
  - now rewrite decode_char, IHd.
  - rewrite length_app. pose proof (utf8_char_length c). lia.
Qed.

(** ** The question block, all cases *)

(** No click on the query button: the block shows its header only. *)
Lemma question_column_idle (i : Inputs) (image_data : option (list part))
    (w : World) :
  in_submit i = false ->
  question_column i image_data w
  = (Ret tt, set_ui (fun l => l ++ [st_subheader "Question and Response"]) w).
Proof.
  intros Hs. unfold question_column, bind, emit. now rewrite Hs.
Qed.

(** A click without an input unit or without a question. *)
Lemma question_column_refused (i : Inputs) (image_data : option (list part))
    (w : World) :
  in_submit i = true ->
  truthy_list image_data && truthy_str (Some (in_query i)) = false ->
  let run := question_column i image_data w in
  fst run = (if in_submit_feedback i
             then Raise (Exn "NameError" "name 'response' is not defined")
             else Ret tt) /\
  ui (snd run)
  = ui w ++ [st_subheader "Question and Response";
             st_warning "Please upload an image or PDF and enter a query.";
             st_subheader "Validate the Response"] /\
  requests (snd run) = requests w /\
  feedback_log (snd run) = feedback_log w /\
  tmpdir (snd run) = tmpdir w.
Proof.
  intros Hs Hg. cbv zeta. unfold question_column. rewrite Hs, Hg.
  destruct (in_submit_feedback i); simpl; rewrite <- !app_assoc;
    repeat split; reflexivity.
Qed.

(** A click with an input unit and a question. *)
Lemma question_column_asked (i : Inputs) (p0 : part) (rest : list part)
    (w : World) :
  in_submit i = true ->
  in_query i <> EmptyString ->
  let r := query_request (in_query i) p0 in
  let answer := generate_content (genai_key w) (requests w) r in
  let run := question_column i (Some (p0 :: rest)) w in
  fst run = Ret tt /\
  requests (snd run) = requests w ++ [r] /\
  ui (snd run)
  = ui w ++ st_subheader "Question and Response" :: shown_answer answer
      ++ st_subheader "Validate the Response"
      :: (if in_submit_feedback i
          then [st_success
                  "Feedback submitted. Thank you for helping improve the system!"]
          else []) /\
  feedback_log (snd run)
  = (if in_submit_feedback i
     then Some (log_text w
                ++ str_feedback_log
                     {| fb_query := in_query i;
                        fb_response := response_of answer;
                        fb_validation := verdict_str (in_validation i);
                        fb_feedback := in_feedback i |}
                ++ String newline EmptyString)%string
     else feedback_log w) /\
  tmpdir (snd run) = tmpdir w.
Proof.
  intros Hs Hq. cbv zeta.
  destruct (in_query i) as [|c q] eqn:Eq; [congruence|].
  unfold question_column. rewrite Hs, Eq.
  cbn [truthy_list truthy_str andb].
  unfold bind, emit. rewrite get_gemini_response_run. cbv zeta.
  cbn [genai_key requests set_ui]. unfold query_request, log_text.
  destruct (generate_content (genai_key w) (requests w) _) as [[|a t]|e];
    destruct (in_submit_feedback i); destruct (feedback_log w) eqn:Hlog;
    unfold ret, log_feedback, load_response, bind, append_log, emit, ret;
    cbn [fst snd truthy_str ui requests feedback_log tmpdir set_ui
         set_requests set_feedback_log shown_answer response_of
         no_response_warning];
    rewrite ?Hlog, <- ?app_assoc; repeat split; reflexivity.
Qed.

Lemma truthy_guard (image_data : option (list part)) (query : string) :
  truthy_list image_data && truthy_str (Some query) = true ->
  query <> EmptyString /\ exists p0 rest, image_data = Some (p0 :: rest).
Proof.
  destruct image_data as [[|p0 rest]|], query; simpl; try discriminate.
  intros _. split; [discriminate | eauto].
Qed.

(** The question block never touches the temporary files. *)
Lemma question_column_tmpdir (i : Inputs) (image_data : option (list part))
    (w : World) :
  tmpdir (snd (question_column i image_data w)) = tmpdir w.
Proof.
  destruct (in_submit i) eqn:Hs.
  - destruct (truthy_list image_data && truthy_str (Some (in_query i))) eqn:Hg.
    + apply truthy_guard in Hg as [Hq (p0 & rest & ->)].
      apply (question_column_asked i p0 rest w Hs Hq).
    + apply (question_column_refused i image_data w Hs Hg).
  - now rewrite question_column_idle.
Qed.

(** X8. The answer on the page. After a click with an input unit and a
    question the block shows, between its two headers: the answer under
    the header of the response when the model gave a text that is not
    empty; the warning that no response was received when the model gave
    the empty text; the error of the call and then the same warning when
    the call failed. *)
Theorem answer_display (i : Inputs) (p0 : part) (rest : list part) (w : World) :
  in_submit i = true ->
  in_submit_feedback i = false ->
  in_query i <> EmptyString ->
  ui (snd (question_column i (Some (p0 :: rest)) w))
  = ui w ++ [st_subheader "Question and Response"]
    ++ match generate_content (genai_key w) (requests w)
               (query_request (in_query i) p0) with
       | Ret (String c t) =>
           [st_subheader "System Response"; st_write (String c t)]
       | Ret EmptyString =>
           [st_warning "No response received. Check model setup or query."]
       | Raise e =>
           [st_error ("Error with Gemini model: " ++ exn_str e);
            st_warning "No response received. Check model setup or query."]
       end
    ++ [st_subheader "Validate the Response"].
Proof.
  intros Hs Hf Hq.
  destruct (question_column_asked i p0 rest w Hs Hq) as (_ & _ & Hui & _).
  rewrite Hui, Hf. unfold shown_answer, no_response_warning.
  destruct (generate_content _ _ _) as [[|c t]|e]; reflexivity.
Qed.

(** X9. What the feedback line records as the response. In a run that
    called the model and in which the feedback button is clicked too, the
    run completes and the log gets one line with the query, the verdict,
    the feedback text and, as the response, the text the model returned
    (the empty text included) or [None] when the call failed. *)
Theorem feedback_records_model_result (i : Inputs) (p0 : part)
    (rest : list part) (w : World) :
  in_submit i = true ->
  in_submit_feedback i = true ->
  in_query i <> EmptyString ->
  let run := question_column i (Some (p0 :: rest)) w in
  let response :=
    match generate_content (genai_key w) (requests w)
            (query_request (in_query i) p0) with
    | Ret text => Some text
    | Raise _ => None
    end in
  fst run = Ret tt /\
  feedback_log (snd run)
  = Some (log_text w
          ++ str_feedback_log
               {| fb_query := in_query i;
                  fb_response := response;
                  fb_validation := verdict_str (in_validation i);
                  fb_feedback := in_feedback i |}
          ++ String newline EmptyString)%string.
Proof.
  intros Hs Hf Hq. cbv zeta.
  destruct (question_column_asked i p0 rest w Hs Hq) as (Hr & _ & _ & Hlog & _).
  rewrite Hlog, Hf. split; [exact Hr | reflexivity].
Qed.

(** ** Whole runs *)

(** What the start of the run leaves alone, and the key it sets. *)
Lemma startup_frame (key : option string) (w : World) :
  requests (snd (startup key w)) = requests w /\
  feedback_log (snd (startup key w)) = feedback_log w /\
  tmpdir (snd (startup key w)) = tmpdir w /\
  up_pos (snd (startup key w)) = up_pos w /\
  genai_key (snd (startup key w))
  = match key with Some k => Some k | None => genai_key w end.
Proof. destruct key; repeat split; reflexivity. Qed.

Ltac world_fields :=
  cbn [fst snd ui requests feedback_log tmpdir up_pos genai_key
       set_ui set_up_pos set_tmpdir set_requests set_feedback_log
       after_process_pdf] in *.

Lemma image_type_not_pdf (file_type : string) :
  str_in file_type image_types = true ->
  (file_type =? "application/pdf")%string = false.
Proof.
  intros H. destruct (String.eqb_spec file_type "application/pdf") as [->|];
    [discriminate H | reflexivity].
Qed.

(** X10. From the upload of an image to the request. In a run with an
    image of a supported type that the decoder accepts, a question that
    is not empty and a click on the query button, exactly one request
    goes to the model: the question, then the part with the declared type
    and the whole content of the upload, then the fixed prompt; it is
    answered with the key of the environment, if there is one. *)
Theorem image_query_request (i : Inputs) (f : UploadedFile) (w : World)
    (used : nat) :
  in_uploaded_file i = Some f ->
  str_in (up_type f) image_types = true ->
  pil_open (up_data f) = Ret used ->
  in_submit i = true ->
  in_query i <> EmptyString ->
  let r := query_request (in_query i) (Part (up_type f) (up_data f)) in
  let key := match in_api_key i with
             | Some k => Some k
             | None => genai_key w
             end in
  requests (snd (script i w)) = requests w ++ [r] /\
  (forall shown, In shown (shown_answer (generate_content key (requests w) r)) ->
     In shown (ui (snd (script i w)))).
Proof.
  intros Hf Ht Hp Hs Hq. cbv zeta. rewrite script_run, Hf.
  destruct (startup_frame (in_api_key i) w) as (Hrq & _ & _ & Hpos & Hkey).
  rewrite upload_column_image_run by assumption.
  rewrite Hp. cbn [fst].
  match goal with
  | |- context [question_column i _ ?w2] =>
      destruct (question_column_asked i (Part (up_type f) (up_data f)) [] w2 Hs Hq)
        as (_ & Hreq & Hui & _)
  end.
  world_fields. rewrite Hrq in Hreq, Hui. rewrite Hkey in Hui.
  split; [exact Hreq|].
  intros shown Hin. rewrite Hui. apply in_or_app. right. right.
  apply in_or_app. now left.
Qed.

(** X11. From the upload of a PDF to the request. In a run with a PDF
    that the parser opens and whose pages all give their text, a question
    that is not empty and a click on the query button, exactly one request
    goes to the model, with a part of type [text/plain] whose bytes are
    the encoded page texts in page order; it goes out also when that text
    is empty. *)
Theorem pdf_query_request (i : Inputs) (f : UploadedFile) (w : World)
    (pages : list page) (texts : list string) :
  in_uploaded_file i = Some f ->
  up_type f = "application/pdf" ->
  fitz_open (seen_at_open (skipn (up_pos w) (up_data f))) = Ret pages ->
  Forall2 (fun pg t => get_text pg = Ret t) pages texts ->
  in_submit i = true ->
  in_query i <> EmptyString ->
  requests (snd (script i w))
  = requests w
    ++ [query_request (in_query i)
          (Part "text/plain" (concat (map encode texts)))].
Proof.
  intros Hf Ht Hopen Hall Hs Hq. rewrite script_run, Hf.
  destruct (startup_frame (in_api_key i) w) as (Hrq & _ & _ & Hpos & _).
  rewrite upload_column_pdf_run by assumption.
  cbn [up_pos set_ui]. rewrite Hpos.
  unfold extraction. rewrite Hopen, (extract_pages_all _ _ Hall).
  rewrite <- encode_join_texts.
  destruct (join_texts texts) as [|c t]; cbn [fst];
    match goal with
    | |- context [question_column i (Some [?p]) ?w2] =>
        destruct (question_column_asked i p [] w2 Hs Hq) as (_ & Hreq & _)
    end;
    world_fields; rewrite Hrq in Hreq; exact Hreq.
Qed.

(** X12. The requests of a run. A run sends at most one request. It sends
    one only if the query button was clicked with a question that is not
    empty, and the request is then this question, an input unit and the
    fixed prompt, for the fixed model. *)
Theorem requests_of_a_run (i : Inputs) (w : World) :
  requests (snd (script i w)) = requests w \/
  (in_submit i = true /\
   in_query i <> EmptyString /\
   exists unit,
     requests (snd (script i w))
     = requests w ++ [query_request (in_query i) unit]).
Proof.
  rewrite script_run.
  destruct (startup_frame (in_api_key i) w) as (Hrq & _).
  pose proof (upload_column_frame (in_uploaded_file i)
                (set_ui (fun l => l ++ [st_title "Purchase Order Automation System"])
                   (snd (startup (in_api_key i) w)))) as (Hup & _).
  destruct (upload_column _ _) as [[iv|e] w2]; world_fields;
    [|left; congruence].
  destruct (in_submit i) eqn:Hs.
  - destruct (truthy_list (fst iv) && truthy_str (Some (in_query i))) eqn:Hg.
    + apply truthy_guard in Hg as [Hq (p0 & rest & Hiv)]. rewrite Hiv.
      destruct (question_column_asked i p0 rest w2 Hs Hq) as (_ & Hreq & _).
      right. repeat split; [assumption|]. exists p0. congruence.
    + destruct (question_column_refused i (fst iv) w2 Hs Hg)
        as (_ & _ & Hreq & _).
      left. congruence.
  - rewrite question_column_idle by assumption. left. world_fields.
    congruence.
Qed.


(** X14. The temporary files of a run. A run whose upload is declared a
    PDF leaves one more temporary file, the copy of the upload, whether
    the extraction succeeds or not and whatever happens afterwards; any
    other run leaves the temporary directory as it was. *)
Theorem temp_files_of_a_run (i : Inputs) (w : World) :
  tmpdir (snd (script i w))
  = match in_uploaded_file i with
    | Some f =>
        if (up_type f =? "application/pdf")%string
        then tmpdir w ++ [TmpFile (skipn (up_pos w) (up_data f)) [] false]
        else tmpdir w
    | None => tmpdir w
    end.
Proof.
  rewrite script_run.
  destruct (startup_frame (in_api_key i) w) as (_ & _ & Htmp & Hpos & _).
  destruct (in_uploaded_file i) as [f|].
  - destruct (file_type_cases (up_type f)) as [Hi | [Hp | Hu]].
    + rewrite upload_column_image_run, (image_type_not_pdf _ Hi) by assumption.
      destruct (pil_open _); [rewrite question_column_tmpdir|];
        world_fields; exact Htmp.
    + rewrite upload_column_pdf_run by assumption. rewrite Hp.
      change ("application/pdf" =? "application/pdf")%string with true.
      cbv iota.
      destruct (extraction _) as [[|c t]|e];
        rewrite ?question_column_tmpdir;
        world_fields; now rewrite Htmp, Hpos.
    + rewrite upload_column_unsupported by assumption.
      unfold supported in Hu. apply orb_false_elim in Hu as [_ Hu].
      rewrite Hu, question_column_tmpdir. world_fields. exact Htmp.
  - unfold upload_column, ret. rewrite question_column_tmpdir.
    world_fields. exact Htmp.
Qed.

(** X15. A PDF whose extraction fails ends the run. Whatever the buttons
    and the query, the run stops in the upload block with the exception
    of [encode]: the page ends with the error message of [process_pdf],
    the question block is not reached, no request is sent and the log is
    not written. *)
Theorem pdf_failure_stops_run (i : Inputs) (f : UploadedFile) (w : World) :
  in_uploaded_file i = Some f ->
  up_type f = "application/pdf" ->
  fst (process_pdf f w) = Ret None ->
  fst (script i w)
  = Raise (Exn "AttributeError" "'NoneType' object has no attribute 'encode'") /\
  requests (snd (script i w)) = requests w /\
  feedback_log (snd (script i w)) = feedback_log w /\
  exists e,
    ui (snd (script i w))
    = ui (snd (startup (in_api_key i) w))
      ++ [st_title "Purchase Order Automation System";
          st_error ("Error processing PDF: " ++ exn_str e)].
Proof.
  intros Hf Ht Hnone. apply process_pdf_no_extraction in Hnone as [e He].
  rewrite script_run, Hf.
  destruct (startup_frame (in_api_key i) w) as (Hrq & Hlog & _ & Hpos & _).
  rewrite upload_column_pdf_run by assumption.
  cbn [up_pos set_ui]. rewrite Hpos, He. world_fields.
  repeat split; try assumption. exists e. now rewrite <- app_assoc.
Qed.

(** X16. An image the decoder rejects ends the run. [Image.open] is
    called outside any [try]: its exception ends the run after the title,
    before any input unit is made; no request is sent and the log is not
    written. *)
Theorem image_rejected_stops_run (i : Inputs) (f : UploadedFile) (w : World)
    (e : exn) :
  in_uploaded_file i = Some f ->
  str_in (up_type f) image_types = true ->
  pil_open (up_data f) = Raise e ->
  fst (script i w) = Raise e /\
  requests (snd (script i w)) = requests w /\
  feedback_log (snd (script i w)) = feedback_log w /\
  ui (snd (script i w))
  = ui (snd (startup (in_api_key i) w))
    ++ [st_title "Purchase Order Automation System"].
Proof.
  intros Hf Ht Hp. rewrite script_run, Hf.
  destruct (startup_frame (in_api_key i) w) as (Hrq & Hlog & _ & Hpos & _).
  rewrite upload_column_image_run by assumption.
  rewrite Hp. world_fields.
  repeat split; assumption || reflexivity.
Qed.

(** ** The log line *)

(** X17. Two feedback records that differ in any of their four values
    give two different log lines. *)
Theorem str_feedback_log_injective (d1 d2 : FeedbackRecord) :
  d1 <> d2 -> str_feedback_log d1 <> str_feedback_log d2.
Proof.
  intros Hd Heq. apply Hd.
  apply (f_equal read_feedback_log) in Heq.
  rewrite !read_feedback_log_str in Heq. now injection Heq.
Qed.

(** ** The credential *)

(** The upload block only adds to the page. *)
Lemma upload_column_ui (uploaded_file : option UploadedFile) (w : World) :
  exists shown, ui (snd (upload_column uploaded_file w)) = ui w ++ shown.
Proof.
  destruct uploaded_file as [f|]; [|exists []; simpl; now rewrite app_nil_r].
  destruct (file_type_cases (up_type f)) as [Hi | [Hp | Hu]].
  - rewrite upload_column_image_run by assumption.
    destruct (pil_open _); eexists; world_fields;
      [reflexivity | symmetry; apply app_nil_r].
  - rewrite upload_column_pdf_run by assumption.
    destruct (extraction _) as [[|c t]|e]; eexists; world_fields;
      [symmetry; apply app_nil_r | reflexivity | reflexivity].
  - rewrite upload_column_unsupported by assumption.
    exists []. simpl. now rewrite app_nil_r.
Qed.

(** The question block only adds to the page, its header first. *)
Lemma question_column_ui (i : Inputs) (image_data : option (list part))
    (w : World) :
  exists shown,
    ui (snd (question_column i image_data w))
    = ui w ++ st_subheader "Question and Response" :: shown.
Proof.
  destruct (in_submit i) eqn:Hs.
  - destruct (truthy_list image_data && truthy_str (Some (in_query i))) eqn:Hg.
    + apply truthy_guard in Hg as [Hq (p0 & rest & ->)].
      destruct (question_column_asked i p0 rest w Hs Hq) as (_ & _ & Hui & _).
      eexists. exact Hui.
    + destruct (question_column_refused i image_data w Hs Hg) as (_ & Hui & _).
      eexists. exact Hui.
  - rewrite question_column_idle by assumption. exists []. reflexivity.
Qed.

(** Every run gets past its start: the title is shown after what the
    start displayed. *)
Lemma script_ui (i : Inputs) (w : World) :
  exists shown,
    ui (snd (script i w))
    = ui (snd (startup (in_api_key i) w))
      ++ st_title "Purchase Order Automation System" :: shown.
Proof.
  rewrite script_run.
  destruct (upload_column_ui (in_uploaded_file i)
              (set_ui (fun l => l ++ [st_title "Purchase Order Automation System"])
                 (snd (startup (in_api_key i) w)))) as [up Hup].
  destruct (upload_column _ _) as [[iv|e] w2]; world_fields.
  - destruct (question_column_ui i (fst iv) w2) as [qs Hqs].
    exists (up ++ st_subheader "Question and Response" :: qs).
    rewrite Hqs, Hup, <- !app_assoc. reflexivity.
  - exists up. rewrite Hup, <- app_assoc. reflexivity.
Qed.

(** A run with an accepted image, a question and a click. *)
Lemma script_image_query (i : Inputs) (f : UploadedFile) (w : World)
    (used : nat) :
  in_uploaded_file i = Some f ->
  str_in (up_type f) image_types = true ->
  pil_open (up_data f) = Ret used ->
  in_submit i = true ->
  in_query i <> EmptyString ->
  let r := query_request (in_query i) (Part (up_type f) (up_data f)) in
  let answer := generate_content (genai_key (snd (startup (in_api_key i) w)))
                  (requests w) r in
  requests (snd (script i w)) = requests w ++ [r] /\
  (forall shown, In shown (shown_answer answer) ->
     In shown (ui (snd (script i w)))).
Proof.
  intros Hf Ht Hp Hs Hq. cbv zeta. rewrite script_run, Hf.
  destruct (startup_frame (in_api_key i) w) as (Hrq & _).
  rewrite upload_column_image_run by assumption.
  rewrite Hp. cbn [fst].
  match goal with
  | |- context [question_column i _ ?w2] =>
      destruct (question_column_asked i (Part (up_type f) (up_data f)) [] w2 Hs Hq)
        as (_ & Hreq & Hui & _)
  end.
  world_fields. rewrite Hrq in Hreq, Hui.
  split; [exact Hreq|].
  intros shown Hin. rewrite Hui. apply in_or_app. right. right.
  apply in_or_app. now left.
Qed.

(** C5, as the code has it. With no credential in the environment the
    start of the run displays the error about the key and leaves the
    client library without a key, and the run goes on: the title and the
    rest of the page follow. Nothing stops [get_gemini_response]
    afterwards: called without a key it sends its request all the same
    and returns the text when the library answers; when the library
    fails it displays the failure as an error of the model and returns
    [None]. So it is in the run itself: with an accepted image, a
    question and a click the request goes out, and the page shows the
    answer, or the error of the model and the warning. *)
Theorem no_credential_still_calls (i : Inputs) (w : World) :
  in_api_key i = None ->
  genai_key w = None ->
  startup None w
  = (Ret tt,
     set_ui (fun l => l ++ [st_error "Google API Key is not set. Check your .env file."])
       w) /\
  genai_key (snd (startup None w)) = None /\
  (exists shown,
     ui (snd (script i w))
     = ui w ++ st_error "Google API Key is not set. Check your .env file."
         :: st_title "Purchase Order Automation System" :: shown) /\
  (forall (q prompt : string) (p0 : part) (rest : list part) (w1 : World),
     genai_key w1 = None ->
     let r := Request "gemini-1.5-flash" [CText q; CPart p0; CText prompt] in
     let run := get_gemini_response q (p0 :: rest) prompt w1 in
     requests (snd run) = requests w1 ++ [r] /\
     match generate_content None (requests w1) r with
     | Ret text => fst run = Ret (Some text) /\ ui (snd run) = ui w1
     | Raise e =>
         fst run = Ret None /\
         ui (snd run)
         = ui w1 ++ [st_error ("Error with Gemini model: " ++ exn_str e)]
     end) /\
  (forall (f : UploadedFile) (used : nat),
     in_uploaded_file i = Some f ->
     str_in (up_type f) image_types = true ->
     pil_open (up_data f) = Ret used ->
     in_submit i = true ->
     in_query i <> EmptyString ->
     let r := query_request (in_query i) (Part (up_type f) (up_data f)) in
     requests (snd (script i w)) = requests w ++ [r] /\
     match generate_content None (requests w) r with
     | Ret (String c t) => In (st_write (String c t)) (ui (snd (script i w)))
     | Ret EmptyString =>
         In (st_warning "No response received. Check model setup or query.")
            (ui (snd (script i w)))
     | Raise e =>
         In (st_error ("Error with Gemini model: " ++ exn_str e))
            (ui (snd (script i w))) /\
         In (st_warning "No response received. Check model setup or query.")
            (ui (snd (script i w)))
     end).
Proof.
  intros Hkey Hw. split; [reflexivity|]. split; [exact Hw|]. split.
  - destruct (script_ui i w) as [shown Hshown]. exists shown.
    rewrite Hshown, Hkey. cbn [startup emit snd ui set_ui].
    now rewrite <- app_assoc.
  - split.
    + intros q prompt p0 rest w1 Hw1. cbv zeta.
      rewrite get_gemini_response_run. cbv zeta. rewrite Hw1.
      destruct (generate_content None (requests w1) _);
        simpl; repeat split; reflexivity.
    + intros f used Hf Ht Hp Hs Hq. cbv zeta.
      destruct (script_image_query i f w used Hf Ht Hp Hs Hq) as [Hreq Hui].
      cbv zeta in Hui. rewrite Hkey in Hui.
      cbn [startup emit snd genai_key set_ui] in Hui. rewrite Hw in Hui.
      split; [exact Hreq|].
      unfold shown_answer, no_response_warning in Hui.
      destruct (generate_content None (requests w) _) as [[|c t]|e].
      * apply Hui. now left.
      * apply Hui. right. now left.
      * split; apply Hui; [now left | right; now left].
Qed.

(** X19. The line a run writes. In a run that called the model and in
    which the feedback button reports a click too, the log is the text it
    had before followed by one line and a newline. The line has printable
    characters only, so no line break of any kind; the query, the
    response (the text of the model, or [None] after a failed call), the
    verdict and the feedback can be read back from it, and each of them
    that is plain text is in the line as it is. *)
Theorem feedback_line_of_a_run (i : Inputs) (p0 : part) (rest : list part)
    (w : World) :
  in_submit i = true ->
  in_submit_feedback i = true ->
  in_query i <> EmptyString ->
  let d :=
    {| fb_query := in_query i;
       fb_response :=
         match generate_content (genai_key w) (requests w)
                 (query_request (in_query i) p0) with
         | Ret text => Some text
         | Raise _ => None
         end;
       fb_validation := verdict_str (in_validation i);
       fb_feedback := in_feedback i |} in
  let line := str_feedback_log d in
  feedback_log (snd (question_column i (Some (p0 :: rest)) w))
  = Some (log_text w ++ line ++ String newline EmptyString)%string /\
  printable line = true /\
  has_char newline line = false /\
  read_feedback_log line = Some d /\
  (forall v : string,
     plain v = true ->
     v = in_query i \/ fb_response d = Some v \/
     v = verdict_str (in_validation i) \/ v = in_feedback i ->
     occurs_in v line).
Proof.
  intros Hs Hf Hq. cbv zeta.
  destruct (question_column_asked i p0 rest w Hs Hq) as (_ & _ & _ & Hlog & _).
  rewrite Hf in Hlog. split; [exact Hlog|].
  match goal with
  | |- context [str_feedback_log ?d] =>
      pose proof (feedback_appends_one_line (fb_query d) (fb_response d)
                    (fb_validation d) (fb_feedback d) w) as H
  end.
  cbv zeta in H. destruct H as (_ & _ & Hp & Hn & _ & Hread & Hplain).
  repeat split; assumption.
Qed.

End Further.

(** * More concrete runs *)

(** The second page of three is damaged: none of the text comes back. *)
Lemma process_pdf_all_or_nothing_witness :
  @get_text toy_libs_damaged "damaged"
  = Raise (Exn "RuntimeError" "cannot load page") /\
  fst (process_pdf (L := toy_libs_damaged) damaged_pdf initial_world)
  = Ret None /\
  ui (snd (process_pdf (L := toy_libs_damaged) damaged_pdf initial_world))
  = [st_error "Error processing PDF: cannot load page"].
Proof.
  split; [reflexivity|].
  refine (process_pdf_all_or_nothing (L := toy_libs_damaged)
            damaged_pdf initial_world ["Page1 text"] ["Page3 text"] "damaged"
            ["Page1 text"] (Exn "RuntimeError" "cannot load page") _ _ _).
  - reflexivity.
  - repeat constructor.
  - reflexivity.
Defined.

(** A short text: the preview is the text and the three dots. *)
Lemma pdf_preview_witness :
  fst (process_pdf (L := toy_libs) three_pages initial_world)
  = Ret (Some "Page1 textPage2 textPage3 text") /\
  exists shown rest : string,
    ui (snd (upload_column (L := toy_libs) (Some three_pages) initial_world))
    = [st_subheader "Uploaded PDF Content Preview";
       st_text_area "PDF Content" (shown ++ "...")] /\
    "Page1 textPage2 textPage3 text" = (shown ++ rest)%string /\
    String.length shown = 30.
Proof.
  split; [reflexivity|].
  exact (pdf_preview (L := toy_libs) three_pages initial_world
           "Page1 textPage2 textPage3 text" eq_refl eq_refl).
Defined.

(** Two pages, the first with accented letters: two bytes for each. *)
Lemma pdf_unit_bytes_witness :
  up_type accents_pdf = "application/pdf" /\
  fst (upload_column (L := toy_libs) (Some accents_pdf) initial_world)
  = Ret (Some [Part "text/plain"
                 [xc3; xa9; x74; xc3; xa9; x32; x30; x32; x34]],
         Some (String "233"%char
                 (String "t"%char (String "233"%char "2024")))).
Proof.
  split; [reflexivity|].
  refine (pdf_unit_bytes (L := toy_libs) accents_pdf initial_world
            [String "233"%char (String "t"%char (String "233"%char EmptyString));
             "2024"]
            [String "233"%char (String "t"%char (String "233"%char EmptyString));
             "2024"] _ _ _).
  - reflexivity.
  - reflexivity.
  - repeat constructor.
Defined.

(** The model answers: the answer is shown. *)
Lemma answer_display_witness :
  let i := ask (Some "key") (Some po_png) "Total?" in
  let w := set_genai_key (Some "key") initial_world in
  in_query i <> EmptyString /\
  ui (snd (question_column (L := toy_libs) i
             (Some [Part "image/png" (up_data po_png)]) w))
  = [st_subheader "Question and Response";
     st_subheader "System Response"; st_write "The total is $500";
     st_subheader "Validate the Response"].
Proof.
  cbv zeta. split; [discriminate|].
  refine (answer_display (L := toy_libs)
            (ask (Some "key") (Some po_png) "Total?")
            (Part "image/png" (up_data po_png)) []
            (set_genai_key (Some "key") initial_world) _ _ _).
  - reflexivity.
  - reflexivity.
  - discriminate.
Defined.

(** The call fails for want of a key: the line records [None]. *)
Lemma feedback_records_model_result_witness :
  let i := send_feedback None (Some po_png) "Total?" No "no answer" in
  in_submit i = true /\
  in_submit_feedback i = true /\
  feedback_log
    (snd (question_column (L := toy_libs) i
            (Some [Part "image/png" (up_data po_png)]) initial_world))
  = Some ("{'query': 'Total?', 'response': None, 'validation': 'No', 'feedback': 'no answer'}"
          ++ String newline EmptyString)%string.
Proof.
  cbv zeta. split; [reflexivity|]. split; [reflexivity|].
  refine (proj2 (feedback_records_model_result (L := toy_libs)
                   (send_feedback None (Some po_png) "Total?" No "no answer")
                   (Part "image/png" (up_data po_png)) [] initial_world _ _ _)).
  - reflexivity.
  - reflexivity.
  - discriminate.
Defined.

(** Scenario A, the whole run. *)
Lemma image_query_request_witness :
  let i := ask (Some "key") (Some po_png) "What is the total amount?" in
  str_in (up_type po_png) image_types = true /\
  requests (snd (script (L := toy_libs) i initial_world))
  = [query_request "What is the total amount?"
       (Part "image/png" (up_data po_png))] /\
  In (st_write "The total is $500")
     (ui (snd (script (L := toy_libs) i initial_world))).
Proof.
  cbv zeta. split; [reflexivity|].
  pose proof (image_query_request (L := toy_libs)
                (ask (Some "key") (Some po_png) "What is the total amount?")
                po_png initial_world 8 eq_refl eq_refl eq_refl eq_refl)
    as H.
  cbv zeta in H. destruct H as [Hreq Hshown]; [discriminate|].
  split; [exact Hreq|]. apply Hshown. right. now left.
Defined.

(** A scanned page, the whole run: the request carries a part with no
    bytes. *)
Lemma pdf_query_request_witness :
  up_type scanned_pdf = "application/pdf" /\
  requests (snd (script (L := toy_libs)
                   (ask (Some "key") (Some scanned_pdf) "Total?")
                   initial_world))
  = [query_request "Total?" (Part "text/plain" [])].
Proof.
  split; [reflexivity|].
  refine (pdf_query_request (L := toy_libs)
            (ask (Some "key") (Some scanned_pdf) "Total?") scanned_pdf
            initial_world [EmptyString] [EmptyString] _ _ _ _ _ _).
  - reflexivity.
  - reflexivity.
  - reflexivity.
  - repeat constructor.
  - reflexivity.
  - discriminate.
Defined.

(** A file that is not a PDF, with both buttons clicked. *)
Lemma pdf_failure_stops_run_witness :
  let i := send_feedback (Some "key") (Some broken_pdf) "Total?" Yes "fine" in
  fst (process_pdf (L := toy_libs) broken_pdf initial_world) = Ret None /\
  fst (script (L := toy_libs) i initial_world)
  = Raise (Exn "AttributeError" "'NoneType' object has no attribute 'encode'") /\
  requests (snd (script (L := toy_libs) i initial_world)) = [] /\
  feedback_log (snd (script (L := toy_libs) i initial_world)) = None.
Proof.
  cbv zeta. split; [reflexivity|].
  pose proof (pdf_failure_stops_run (L := toy_libs)
                (send_feedback (Some "key") (Some broken_pdf) "Total?" Yes "fine")
                broken_pdf initial_world eq_refl eq_refl eq_refl)
    as (Hfst & Hreq & Hlog & _).
  repeat split; assumption.
Defined.

(** A text file named like an image. *)
Lemma image_rejected_stops_run_witness :
  let i := ask (Some "key") (Some fake_png) "Total?" in
  str_in (up_type fake_png) image_types = true /\
  fst (script (L := toy_libs) i initial_world)
  = Raise (Exn "UnidentifiedImageError" "cannot identify image file") /\
  ui (snd (script (L := toy_libs) i initial_world))
  = [st_title "Purchase Order Automation System"].
Proof.
  cbv zeta. split; [reflexivity|].
  pose proof (image_rejected_stops_run (L := toy_libs)
                (ask (Some "key") (Some fake_png) "Total?") fake_png
                initial_world
                (Exn "UnidentifiedImageError" "cannot identify image file")
                eq_refl eq_refl eq_refl)
    as (Hfst & _ & _ & Hui).
  split; [exact Hfst | exact Hui].
Defined.

(** No response and the response that reads None. *)
Lemma str_feedback_log_injective_witness :
  let d1 := Build_FeedbackRecord "Total?" None "No" EmptyString in
  let d2 := Build_FeedbackRecord "Total?" (Some "None") "No" EmptyString in
  d1 <> d2 /\ str_feedback_log d1 <> str_feedback_log d2.
Proof.
  cbv zeta. split; [discriminate|].
  apply str_feedback_log_injective. discriminate.
Defined.

(** A run without a key, with [po.png] and a question, where the library
    has no credentials of its own either. *)
Lemma no_credential_still_calls_witness :
  let i := ask None (Some po_png) "Total?" in
  in_api_key i = None /\
  genai_key initial_world = None /\
  requests (snd (script (L := toy_libs) i initial_world))
  = [query_request "Total?" (Part "image/png" (up_data po_png))] /\
  In (st_error "Error with Gemini model: No API_KEY or ADC found.")
     (ui (snd (script (L := toy_libs) i initial_world))).
Proof.
  cbv zeta. split; [reflexivity|]. split; [reflexivity|].
  pose proof (no_credential_still_calls (L := toy_libs)
                (ask None (Some po_png) "Total?") initial_world
                eq_refl eq_refl) as (_ & _ & _ & _ & Hrun).
  specialize (Hrun po_png 8 eq_refl eq_refl eq_refl eq_refl).
  cbv zeta in Hrun. destruct Hrun as [Hreq Hshown]; [discriminate|].
  split; [exact Hreq | exact (proj1 Hshown)].
Defined.

(** Scenario D as a run: the model answers, the user agrees. *)
Lemma feedback_line_of_a_run_witness :
  let i := send_feedback (Some "key") (Some po_png) "Total?" Yes EmptyString in
  in_submit i = true /\
  in_submit_feedback i = true /\
  feedback_log
    (snd (question_column (L := toy_libs) i
            (Some [Part "image/png" (up_data po_png)]) one_line_logged))
  = Some ("earlier line" ++ String newline EmptyString
          ++ "{'query': 'Total?', 'response': 'The total is $500', 'validation': 'Yes', 'feedback': ''}"
          ++ String newline EmptyString)%string.
Proof.
  cbv zeta. split; [reflexivity|]. split; [reflexivity|].
  refine (proj1 (feedback_line_of_a_run (L := toy_libs)
                   (send_feedback (Some "key") (Some po_png) "Total?" Yes
                      EmptyString)
                   (Part "image/png" (up_data po_png)) [] one_line_logged
                   _ _ _)).
  - reflexivity.
  - reflexivity.
  - discriminate.
Defined.
